(** * Expense analysis pipeline: categorisation, anomaly bookkeeping,
      budget summary and query dispatch

    A shallow embedding of [expense_analyzer.py] (class [ExpenseAnalyzer])
    and of [process_csv] and [handle_query] of [app.py].

    Modelling conventions.
    - A pandas frame is the list of its rows, in row order.  A frame held
      by an analyzer is one that [load_data] accepted: it has the four
      required columns and its dates went through [pd.to_datetime].  When
      [load_data] raises after [read_csv] has returned, the code leaves
      the unvalidated frame in [self.data]; [process_csv] drops that
      analyzer, so that the session never holds one, and no analyzer of
      this development holds such a frame.
    - A cell of the category or description column is a text or the NaN
      that [read_csv] gives for an empty cell; a date is a time stamp or
      NaT; an amount is a number, or a text when [read_csv] could not read
      the column as numbers.  A category or description column that
      [read_csv] reads as numbers is not represented.
    - Text is [string] (bytes).  [str.lower], [str.upper] and
      [str.capitalize] are modelled on the ASCII letters, which is what
      they do on ASCII text; the statements on the category that a
      description gets and on the letter case of a query are made for
      ASCII text.
    - Numbers are the values of a numeric column (int64 or float64, NaN
      included) and are kept abstract, with the operations the code
      applies to them ([Arith]); nothing is assumed of these operations
      except where a statement says so.
    - Python exceptions are values of [exn]; a method of the analyzer is a
      function from the analyzer to an outcome and the analyzer afterwards.
    - Library calls whose result the code only passes on are parameters:
      the outcome of [pd.read_csv] and [pd.to_datetime] in the loader,
      [self.model.fit_predict] as a field of the analyzer, [plt.savefig]
      and the assembly of the PDF in [process_csv]. *)

From Stdlib Require Import List Bool Arith ZArith QArith Lia.
From Stdlib Require Import Ascii String.
From Stdlib Require Import DecimalString DecimalNat.
From Stdlib Require Import OrdersEx Sorted Permutation Setoid.
Import ListNotations.
Open Scope string_scope.
Open Scope list_scope.

(** ** Text *)

Module Text.

(** [c.lower()] for one ASCII character. *)
Definition lower_ascii (c : ascii) : ascii :=
  let n := nat_of_ascii c in
  if andb (65 <=? n)%nat (n <=? 90)%nat then ascii_of_nat (n + 32) else c.

(** [c.upper()] for one ASCII character. *)
Definition upper_ascii (c : ascii) : ascii :=
  let n := nat_of_ascii c in
  if andb (97 <=? n)%nat (n <=? 122)%nat then ascii_of_nat (n - 32) else c.

(** [s.lower()] *)
Fixpoint lower (s : string) : string :=
  match s with
  | EmptyString => EmptyString
  | String c s' => String (lower_ascii c) (lower s')
  end.

(** [s.upper()] *)
Fixpoint upper (s : string) : string :=
  match s with
  | EmptyString => EmptyString
  | String c s' => String (upper_ascii c) (upper s')
  end.

(** [s.capitalize()]: first character upper-cased, the rest lower-cased. *)
Definition capitalize (s : string) : string :=
  match s with
  | EmptyString => EmptyString
  | String c s' => String (upper_ascii c) (lower s')
  end.

(** [k in s] on strings: [k] is a prefix of some suffix of [s]. *)
Fixpoint contains (k s : string) : bool :=
  if String.prefix k s then true
  else match s with
       | EmptyString => false
       | String _ s' => contains k s'
       end.

(** [any(f(x) for x in l)] *)
Definition any {A : Type} (f : A -> bool) (l : list A) : bool := existsb f l.

(** [all(f(x) for x in l)] *)
Definition all {A : Type} (f : A -> bool) (l : list A) : bool := forallb f l.

(** [x in l] on a list of strings. *)
Definition mem (x : string) (l : list string) : bool :=
  existsb (String.eqb x) l.

(** [next(x for x in l if f(x))]; [None] stands for [StopIteration]. *)
Definition next {A : Type} (f : A -> bool) (l : list A) : option A := find f l.

End Text.

Import Text.

(** ** Exceptions and outcomes *)

Inductive exn : Type :=
| ValueError (msg : string)
| TypeError (msg : string)
| AttributeError (msg : string)
| DateParseError (cell : string)
| ModelError (msg : string).

Definition result (A : Type) : Type := (exn + A)%type.

Definition no_data_msg : string := "No data loaded. Call load_data first.".
Definition schema_msg : string :=
  "CSV must contain 'date', 'category', 'amount', 'description' columns".
Definition no_lower_msg : string :=
  "'float' object has no attribute 'lower'".
Definition not_numeric_msg : string :=
  "Could not convert string to numeric".

(** ** Numbers *)

(** The values of a numeric column and what the code does with them.
    [sum_values] and [mean_values] are [Series.sum()] and [Series.mean()]
    on a series that has values, [group_values] is the sum that
    [groupby(...).sum()] forms of one group; [average] is the type of a
    mean. *)
Class Arith : Type := {
  num : Type;
  of_int : Z -> num;
  gt : num -> num -> bool;
  sub : num -> num -> num;
  sum_values : list num -> num;
  group_values : list num -> num;
  average : Type;
  mean_values : list num -> average;
  times : average -> Z -> average
}.

(** ** Categorizer: one description *)

Definition default_category_keywords : list (string * list string) :=
  [ ("Food", ["coffee"; "restaurant"; "cafe"; "lunch"; "dinner"; "grocery"]);
    ("Travel", ["flight"; "uber"; "taxi"; "hotel"; "train"]);
    ("Utilities", ["electric"; "water"; "internet"; "bill"]);
    ("Entertainment", ["movie"; "concert"; "game"; "ticket"]) ].

(** The inner function of [auto_categorize]: the dict is walked in
    insertion order and the first category with a matching keyword is
    returned. *)
Fixpoint first_category (table : list (string * list string))
                        (lowered : string) : string :=
  match table with
  | [] => "Other"
  | (cat, keywords) :: rest =>
      if any (fun keyword => contains keyword lowered) keywords then cat
      else first_category rest lowered
  end.

Definition categorize_description (table : list (string * list string))
                                  (description : string) : string :=
  first_category table (lower description).

(** ** Dates *)

(** A parsed date (a pandas [Timestamp], day resolution). *)
Record Timestamp : Type := mkTimestamp {
  ts_year : nat;
  ts_month : nat;
  ts_day : nat
}.

(** A value of a datetime column: a time stamp, or NaT for a missing
    date. *)
Inductive datetime : Type :=
| Stamp (t : Timestamp)
| NaT.

(** [Timestamp.dayofweek]: Monday is 0.  Days are counted from 1970-01-01,
    a Thursday, on the proleptic Gregorian calendar. *)
Definition days_from_civil (t : Timestamp) : Z :=
  let y0 := Z.of_nat (ts_year t) in
  let m := Z.of_nat (ts_month t) in
  let d := Z.of_nat (ts_day t) in
  let y := (if m <=? 2 then y0 - 1 else y0)%Z in
  let era := (y / 400)%Z in
  let yoe := (y - era * 400)%Z in
  let mp := ((m + 9) mod 12)%Z in
  let doy := ((153 * mp + 2) / 5 + d - 1)%Z in
  let doe := (yoe * 365 + yoe / 4 - yoe / 100 + doy)%Z in
  (era * 146097 + doe - 719468)%Z.

Definition dayofweek (t : Timestamp) : Z :=
  ((days_from_civil t + 3) mod 7)%Z.

(** [column.dt.dayofweek] and [column.dt.month] for one value; [None] is
    the NaN that a NaT gives. *)
Definition dt_dayofweek (d : datetime) : option Z :=
  match d with
  | Stamp t => Some (dayofweek t)
  | NaT => None
  end.

Definition dt_month (d : datetime) : option Z :=
  match d with
  | Stamp t => Some (Z.of_nat (ts_month t))
  | NaT => None
  end.

(** [str(n)] *)
Definition str (n : nat) : string := NilZero.string_of_uint (Nat.to_uint n).

(** [f"{n:02d}"] *)
Definition pad2 (n : nat) : string :=
  if (n <? 10)%nat then ("0" ++ str n)%string else str n.

(** [timestamp.strftime('%Y-%m')]; the year of a [Timestamp] has four
    digits, so no padding is involved. *)
Definition strftime_Ym (t : Timestamp) : string :=
  (str (ts_year t) ++ "-" ++ pad2 (ts_month t))%string.

(** ** Cells of text columns *)

(** A value of a text column: a text, or the NaN of an empty cell. *)
Inductive cell : Type :=
| Text (s : string)
| NaN.

(** ** Charts *)

(** The image files that [visualize_data] writes; what is drawn in them is
    the plotting library's business. *)
Inductive Chart : Type :=
| ExpenseTrend
| CategoryBreakdown
| AnomalyScatter.

(** [plt.savefig] for the charts in turn: the first exception ends the
    method. *)
Fixpoint save_all (savefig : Chart -> result unit) (charts : list Chart)
  : result (list Chart) :=
  match charts with
  | [] => inr []
  | c :: rest =>
      match savefig c with
      | inl e => inl e
      | inr _ =>
          match save_all savefig rest with
          | inl e => inl e
          | inr saved => inr (c :: saved)
          end
      end
  end.

(** ** Query texts *)

Definition categories : list string :=
  ["food"; "travel"; "utilities"; "entertainment"].

Definition months : list string :=
  ["january"; "february"; "march"; "april"; "may"; "june";
   "july"; "august"; "september"; "october"; "november"; "december"].

(** [l.index(x)] for an [x] that occurs in [l]. *)
Fixpoint index (x : string) (l : list string) : nat :=
  match l with
  | [] => O
  | y :: l' => if String.eqb x y then O else S (index x l')
  end.

(** The loop over [months]: the filter of the first month named in the
    query, or [None]. *)
Definition date_filter_of (now_year : nat) (content : string)
  : option string :=
  match next (fun month => contains month content) months with
  | None => None
  | Some month =>
      let year := if contains "2025" content then "2025" else str now_year in
      let month_num := (index month months + 1)%nat in
      Some (year ++ "-" ++ pad2 month_num)%string
  end.

(** ** Sorted keys *)

(** One step of the key index that [groupby] builds: keys are kept
    sorted, each once. *)
Fixpoint insert_key (k : string) (keys : list string) : list string :=
  match keys with
  | [] => [k]
  | k' :: keys' =>
      match String.compare k k' with
      | Eq => keys
      | Lt => k :: keys
      | Gt => k' :: insert_key k keys'
      end
  end.

(** ** Methods as state transformers that may raise *)

Module Method.

(** A method of an object of type [S] that returns an [A] or raises. *)
Definition M (S A : Type) : Type := S -> result A * S.

Definition ret {S A : Type} (a : A) : M S A := fun self => (inr a, self).

Definition raise {S A : Type} (e : exn) : M S A := fun self => (inl e, self).

Definition bind {S A B : Type} (m : M S A) (k : A -> M S B) : M S B :=
  fun self =>
    match m self with
    | (inl e, self') => (inl e, self')
    | (inr a, self') => k a self'
    end.

(** Read an attribute of [self]. *)
Definition read {S A : Type} (f : S -> A) : M S A :=
  fun self => (inr (f self), self).

(** Assign to an attribute of [self]. *)
Definition assign {S : Type} (f : S -> S) : M S unit :=
  fun self => (inr tt, f self).

(** Use the outcome of a library call. *)
Definition call {S A : Type} (r : result A) : M S A := fun self => (r, self).

End Method.

Import Method.

Declare Scope method_scope.
Delimit Scope method_scope with method.
Notation "x <- m ;; k" := (bind m (fun x => k))
  (at level 100, m at next level, right associativity) : method_scope.
Notation "m ;;; k" := (bind m (fun _ => k))
  (at level 100, right associativity) : method_scope.
Open Scope method_scope.

Section Program.

Context {arith : Arith}.

(** ** Records *)

(** A value of the amount column: a number (the NaN of an empty cell is
    one of them), or a text when [read_csv] could not read the column as
    numbers. *)
Inductive amount_cell : Type :=
| Amount (x : num)
| AmountText (s : string).

(** One row of the frame.  The last three columns are added by the
    detector: [None] until then; in the two derived columns [Some None] is
    a NaN. *)
Record ExpenseRecord : Type := mkRecord {
  date : datetime;
  category : cell;
  amount : amount_cell;
  description : cell;
  day_of_week : option (option Z);
  month : option (option Z);
  anomaly : option Z
}.

Definition set_category (c : cell) (r : ExpenseRecord) : ExpenseRecord :=
  mkRecord (date r) c (amount r) (description r)
           (day_of_week r) (month r) (anomaly r).

Definition set_features (d m : option Z) (r : ExpenseRecord)
  : ExpenseRecord :=
  mkRecord (date r) (category r) (amount r) (description r)
           (Some d) (Some m) (anomaly r).

Definition set_anomaly (a : Z) (r : ExpenseRecord) : ExpenseRecord :=
  mkRecord (date r) (category r) (amount r) (description r)
           (day_of_week r) (month r) (Some a).

(** ** The analyzer object *)

Definition default_budgets : list (string * num) :=
  [ ("Food", of_int 500); ("Travel", of_int 1000);
    ("Utilities", of_int 300); ("Entertainment", of_int 200) ].

(** One feature vector built by [preprocess_data]:
    [(amount, day_of_week, month)]. *)
Definition features : Type := (amount_cell * option Z * option Z)%type.

(** The attributes of [ExpenseAnalyzer] that the pipeline reads or writes.
    [model] stands for [self.model.fit_predict]: the fitted labels (1 for an
    inlier, -1 for an outlier) or the exception the library raises.
    [data] is [None] or a frame that [load_data] accepted. *)
Record ExpenseAnalyzer : Type := mkAnalyzer {
  model : list features -> result (list Z);
  data : option (list ExpenseRecord);
  anomalies : option (list ExpenseRecord);
  budgets : list (string * num);
  category_keywords : list (string * list string)
}.

(** [ExpenseAnalyzer(...)]: what [__init__] leaves behind. *)
Definition init (fit_predict : list features -> result (list Z))
  : ExpenseAnalyzer :=
  mkAnalyzer fit_predict None None default_budgets default_category_keywords.

Definition set_data (d : option (list ExpenseRecord)) (self : ExpenseAnalyzer)
  : ExpenseAnalyzer :=
  mkAnalyzer (model self) d (anomalies self) (budgets self)
             (category_keywords self).

Definition set_anomalies (a : option (list ExpenseRecord))
                         (self : ExpenseAnalyzer) : ExpenseAnalyzer :=
  mkAnalyzer (model self) (data self) a (budgets self)
             (category_keywords self).

(** The guard that opens every method after [load_data]. *)
Definition require_data : M ExpenseAnalyzer (list ExpenseRecord) :=
  d <- read data ;;
  match d with
  | None => raise (ValueError no_data_msg)
  | Some rows => ret rows
  end.

(** ** Categorizer *)

(** [column.apply(categorize_description)]: the function is applied to the
    cells in row order.  [description.lower()] raises on a cell that is no
    text, and [apply] passes the exception on. *)
Fixpoint apply_categorize (table : list (string * list string))
                          (descriptions : list cell) : result (list string) :=
  match descriptions with
  | [] => inr []
  | Text d :: rest =>
      match apply_categorize table rest with
      | inl e => inl e
      | inr cats => inr (categorize_description table d :: cats)
      end
  | NaN :: _ => inl (AttributeError no_lower_msg)
  end.

(** [frame['category'] = values], for as many values as rows. *)
Definition with_category_column (rows : list ExpenseRecord)
                                (values : list string)
  : list ExpenseRecord :=
  map (fun p => set_category (Text (snd p)) (fst p)) (combine rows values).

(** [auto_categorize] *)
Definition auto_categorize : M ExpenseAnalyzer unit :=
  rows <- require_data ;;
  table <- read category_keywords ;;
  cats <- call (apply_categorize table (map description rows)) ;;
  assign (set_data (Some (with_category_column rows cats))).

(** ** Anomaly detector *)

(** [self.data[...]]: subscripting [None] raises. *)
Definition frame : M ExpenseAnalyzer (list ExpenseRecord) :=
  d <- read data ;;
  match d with
  | None => raise (TypeError "'NoneType' object is not subscriptable")
  | Some rows => ret rows
  end.

(** The row with its two derived columns filled in. *)
Definition with_features (r : ExpenseRecord) : ExpenseRecord :=
  set_features (dt_dayofweek (date r)) (dt_month (date r)) r.

(** A value of a derived column, as [.values] sees it. *)
Definition derived (v : option (option Z)) : option Z :=
  match v with
  | Some x => x
  | None => None
  end.

(** One line of [frame[['amount', 'day_of_week', 'month']].values]. *)
Definition feature_of (r : ExpenseRecord) : features :=
  (amount r, derived (day_of_week r), derived (month r)).

(** [preprocess_data]: adds the two derived columns to [self.data] and
    returns the feature matrix. *)
Definition preprocess_data : M ExpenseAnalyzer (list features) :=
  rows <- frame ;;
  assign (set_data (Some (map with_features rows))) ;;;
  rows' <- frame ;;
  ret (map feature_of rows').

(** [frame['anomaly'] = labels]: pandas refuses a column of another
    length. *)
Definition with_anomaly_column (rows : list ExpenseRecord) (labels : list Z)
  : result (list ExpenseRecord) :=
  if (List.length labels =? List.length rows)%nat
  then inr (map (fun p => set_anomaly (snd p) (fst p)) (combine rows labels))
  else inl (ValueError "Length of values does not match length of index").

(** [row['anomaly'] == -1] *)
Definition is_outlier (r : ExpenseRecord) : bool :=
  match anomaly r with
  | Some a => (a =? -1)%Z
  | None => false
  end.

(** [detect_anomalies] *)
Definition detect_anomalies : M ExpenseAnalyzer unit :=
  _ <- require_data ;;
  feats <- preprocess_data ;;
  fit_predict <- read model ;;
  labels <- call (fit_predict feats) ;;
  rows <- frame ;;
  rows' <- call (with_anomaly_column rows labels) ;;
  assign (set_data (Some rows')) ;;;
  flagged <- frame ;;
  assign (set_anomalies (Some (filter is_outlier flagged))).

(** ** Summarizer *)

(** The amount column as numbers.  [Series.mean()] (line 86) raises on a
    column that holds a text; the sum of line 85 is then never used. *)
Fixpoint numeric_column (cells : list amount_cell) : result (list num) :=
  match cells with
  | [] => inr []
  | Amount x :: rest =>
      match numeric_column rest with
      | inl e => inl e
      | inr xs => inr (x :: xs)
      end
  | AmountText _ :: _ => inl (TypeError not_numeric_msg)
  end.

(** [Series.sum()]; the sum of no values is 0. *)
Definition series_sum (values : list num) : num :=
  match values with
  | [] => of_int 0
  | _ :: _ => sum_values values
  end.

(** [Series.mean()]; [None] is the NaN that pandas gives for no values. *)
Definition series_mean (values : list num) : option average :=
  match values with
  | [] => None
  | _ :: _ => Some (mean_values values)
  end.

(** The keys of [frame.groupby('category')]: the categories of the rows,
    sorted, each once.  A row whose category is missing belongs to no
    group. *)
Definition group_keys (rows : list ExpenseRecord) : list string :=
  fold_left (fun keys r =>
               match category r with
               | Text k => insert_key k keys
               | NaN => keys
               end) rows [].

(** [frame['category'] == name] for one row; a missing category equals no
    name. *)
Definition category_is (name : string) (r : ExpenseRecord) : bool :=
  match category r with
  | Text c => String.eqb c name
  | NaN => false
  end.

(** The rows of the group of one key, in row order. *)
Definition group (k : string) (rows : list ExpenseRecord)
  : list ExpenseRecord :=
  filter (category_is k) rows.

(** The numbers of the amount column of some rows. *)
Definition values (rows : list ExpenseRecord) : list num :=
  flat_map (fun r => match amount r with
                     | Amount x => [x]
                     | AmountText _ => []
                     end) rows.

(** [frame.groupby('category')['amount'].sum()] *)
Definition groupby_sum (rows : list ExpenseRecord) : list (string * num) :=
  map (fun k => (k, group_values (values (group k rows)))) (group_keys rows).

(** [series.get(key, default)] *)
Fixpoint series_get (key : string) (default : num) (g : list (string * num))
  : num :=
  match g with
  | [] => default
  | (k, v) :: g' => if String.eqb key k then v else series_get key default g'
  end.

Record BudgetStatus : Type := mkStatus {
  budget : num;
  spent : num;
  remaining : num;
  status : string
}.

(** The body of the loop over [self.budgets.items()]. *)
Definition budget_entry (breakdown : list (string * num))
                        (item : string * num) : string * BudgetStatus :=
  let (cat, bud) := item in
  let spent := series_get cat (of_int 0) breakdown in
  (cat, mkStatus bud spent (sub bud spent)
                 (if gt spent bud then "Over budget" else "Within budget")).

Record Summary : Type := mkSummary {
  total_expenses : num;
  avg_expense : option average;
  category_breakdown : list (string * num);
  anomaly_count : nat;
  budget_status : list (string * BudgetStatus)
}.

(** [generate_summary] *)
Definition generate_summary : M ExpenseAnalyzer Summary :=
  rows <- require_data ;;
  amounts <- call (numeric_column (map amount rows)) ;;
  let total := series_sum amounts in
  let avg := series_mean amounts in
  let breakdown := groupby_sum rows in
  found <- read anomalies ;;
  let count := match found with Some a => List.length a | None => O end in
  table <- read budgets ;;
  ret (mkSummary total avg breakdown count
                 (map (budget_entry breakdown) table)).

(** ** Loader *)

(** What [pd.read_csv] returns: the header and, for each of the four
    columns that the loader names, its cells as [read_csv] typed them (no
    cells when the file has no such column).  The dates are still the
    cells of the file. *)
Record RawFrame : Type := mkRaw {
  columns : list string;
  date_cells : list cell;
  category_cells : list cell;
  amount_cells : list amount_cell;
  description_cells : list cell
}.

Definition required_columns : list string :=
  ["date"; "category"; "amount"; "description"].

(** Rows of a frame from its four columns. *)
Fixpoint zip_rows (ds : list datetime) (cs : list cell)
                  (ams : list amount_cell) (descs : list cell)
  : list ExpenseRecord :=
  match ds, cs, ams, descs with
  | d :: ds', c :: cs', a :: ams', x :: descs' =>
      mkRecord d c a x None None None :: zip_rows ds' cs' ams' descs'
  | _, _, _, _ => []
  end.

(** [load_data]: the exception it raises, or the frame it leaves in
    [self.data].  [read] is the outcome of [pd.read_csv(data_path)] and
    [to_datetime] is [pd.to_datetime] on a column. *)
Definition load_data (to_datetime : list cell -> result (list datetime))
                     (read : result RawFrame)
  : result (list ExpenseRecord) :=
  match read with
  | inl e => inl e
  | inr df =>
      if negb (all (fun col => mem col (columns df)) required_columns)
      then inl (ValueError schema_msg)
      else
        match to_datetime (date_cells df) with
        | inl e => inl e
        | inr dates =>
            inr (zip_rows dates (category_cells df) (amount_cells df)
                          (description_cells df))
        end
  end.

(** ** Calls on one analyzer *)

(** The calls made on an analyzer; [Load rows] is a [load_data] that
    returned, having put the frame [rows] in [self.data]. *)
Inductive Call : Type :=
| Load (rows : list ExpenseRecord)
| Categorize
| Detect
| Summarize.

(** The analyzer after one call; an exception leaves the analyzer as the
    method left it when it raised. *)
Definition after_call (c : Call) (self : ExpenseAnalyzer) : ExpenseAnalyzer :=
  match c with
  | Load rows => set_data (Some rows) self
  | Categorize => snd (auto_categorize self)
  | Detect => snd (detect_anomalies self)
  | Summarize => snd (generate_summary self)
  end.

(** The analyzer after a sequence of calls, first call first. *)
Fixpoint perform (calls : list Call) (self : ExpenseAnalyzer)
  : ExpenseAnalyzer :=
  match calls with
  | [] => self
  | c :: rest => perform rest (after_call c self)
  end.

(** ** Charts ([visualize_data]) *)

(** [visualize_data]: the two charts of the frame, and the scatter plot
    when there are anomalies to show.  [savefig] stands for the drawing and
    writing of one chart, which succeeds or raises. *)
Definition visualize_data (savefig : Chart -> result unit)
  : M ExpenseAnalyzer (list Chart) :=
  _ <- require_data ;;
  found <- read anomalies ;;
  call (save_all savefig
          ([ExpenseTrend; CategoryBreakdown]
           ++ match found with
              | Some (_ :: _) => [AnomalyScatter]
              | _ => []
              end)).

(** ** Textual report ([generate_report]) *)

(** [series.idxmax()] on a series with at least one entry: the label of
    the first entry that holds the maximum. *)
Fixpoint idxmax_from (best : string) (best_value : num)
                     (g : list (string * num)) : string :=
  match g with
  | [] => best
  | (k, v) :: g' =>
      if gt v best_value then idxmax_from k v g'
      else idxmax_from best best_value g'
  end.

(** [series.idxmax() if not series.empty else 'N/A'] *)
Definition top_category (breakdown : list (string * num)) : string :=
  match breakdown with
  | [] => "N/A"
  | (k, v) :: g => idxmax_from k v g
  end.

(** The four columns of the anomaly table of the report. *)
Definition detail : Type := (datetime * cell * amount_cell * cell)%type.

Definition detailed (r : ExpenseRecord) : detail :=
  (date r, category r, amount r, description r).

(** The section "Anomaly Details": the table of [self.anomalies], or the
    line "No anomalies detected." *)
Inductive AnomalyDetails : Type :=
| NoAnomaliesDetected
| AnomalyTable (rows : list detail).

(** The values that the template of [generate_report] is filled with; the
    time stamp, the report id and the rendering of numbers as text are
    left out. *)
Record Report : Type := mkReport {
  report_total : num;
  report_average : option average;
  report_anomaly_count : nat;
  report_breakdown : list (string * num);
  report_budget_lines : list (string * BudgetStatus);
  report_anomaly_details : AnomalyDetails;
  report_top_category : string;
  report_alert_threshold : option average
}.

(** [generate_report] *)
Definition generate_report : M ExpenseAnalyzer Report :=
  summary <- generate_summary ;;
  found <- read anomalies ;;
  ret (mkReport
         (total_expenses summary)
         (avg_expense summary)
         (anomaly_count summary)
         (category_breakdown summary)
         (budget_status summary)
         (match found with
          | Some (r :: rest) => AnomalyTable (map detailed (r :: rest))
          | _ => NoAnomaliesDetected
          end)
         (top_category (category_breakdown summary))
         (option_map (fun avg => times avg 3) (avg_expense summary))).

(** [generate_pdf_report]: the summary is computed first; [build] stands
    for the assembly of the document, which returns the path of the file
    or raises. *)
Definition generate_pdf_report (build : Summary -> result string)
  : M ExpenseAnalyzer string :=
  summary <- generate_summary ;;
  call (build summary).

(** ** Processing an uploaded file ([process_csv]) *)

(** The message that [process_csv] sends. *)
Inductive Processed : Type :=
| ReportSent (report : Report) (pdf_path : string)
| ProcessingError (e : exn).

(** [process_csv].  [loaded] is the outcome of [analyzer.load_data] on the
    uploaded file: the exception it raised, or the frame it stored;
    [session] is the analyzer kept in the user session before the call.
    The result is the message sent and the analyzer kept in the session
    afterwards. *)
Definition process_csv (fit_predict : list features -> result (list Z))
                       (savefig : Chart -> result unit)
                       (build : Summary -> result string)
                       (loaded : result (list ExpenseRecord))
                       (session : option ExpenseAnalyzer)
  : Processed * option ExpenseAnalyzer :=
  match loaded with
  | inl e => (ProcessingError e, session)
  | inr rows =>
      let analyzer := set_data (Some rows) (init fit_predict) in
      match (auto_categorize ;;; detect_anomalies ;;; visualize_data savefig)
              analyzer with
      | (inl e, _) => (ProcessingError e, session)
      | (inr _, stored) =>
          match (report <- generate_report ;;
                 pdf_path <- generate_pdf_report build ;;
                 ret (report, pdf_path)) stored with
          | (inl e, kept) => (ProcessingError e, Some kept)
          | (inr (report, pdf_path), kept) =>
              (ReportSent report pdf_path, Some kept)
          end
      end
  end.

(** ** Query dispatcher ([handle_query]) *)

(** The three columns that a listing shows. *)
Definition listing : Type := (datetime * amount_cell * cell)%type.

Definition listed (r : ExpenseRecord) : listing :=
  (date r, amount r, description r).

(** [column.dt.strftime('%Y-%m') == date_filter] for one value; a NaT has
    no year-month. *)
Definition in_month (date_filter : string) (d : datetime) : bool :=
  match d with
  | Stamp t => String.eqb (strftime_Ym t) date_filter
  | NaT => false
  end.

(** The message that [handle_query] sends. *)
Inductive Response : Type :=
| NoDataLoaded
| CurrentBudgets (table : list (string * num))
| Expenses (cat : string) (rows : list listing)
| NoExpenses (cat : string) (date_filter : option string)
| BudgetUpdatePrompt
| NotRecognized
| QueryError.

(** [handle_query]; [session] is [cl.user_session.get("analyzer")] and
    [now_year] is [pd.Timestamp.now().year]. *)
Definition handle_query (now_year : nat) (session : option ExpenseAnalyzer)
                        (message : string) : Response :=
  match session with
  | None => NoDataLoaded
  | Some analyzer =>
      match data analyzer with
      | None => NoDataLoaded
      | Some rows =>
          let content := lower message in
          if contains "budget" content then CurrentBudgets (budgets analyzer)
          else if any (fun cat => contains cat content) categories then
            match next (fun cat => contains cat content) categories with
            | None => QueryError
            | Some cat =>
                let category_name := capitalize cat in
                let date_filter := date_filter_of now_year content in
                let expenses :=
                  map listed (filter (category_is category_name) rows) in
                let expenses :=
                  match date_filter with
                  | Some f =>
                      filter (fun e => in_month f (fst (fst e))) expenses
                  | None => expenses
                  end in
                match expenses with
                | _ :: _ => Expenses category_name expenses
                | [] => NoExpenses category_name date_filter
                end
            end
          else if contains "update_budget" content then BudgetUpdatePrompt
          else NotRecognized
      end
  end.

End Program.

(** ** A worked session

    Integer arithmetic as numpy carries it out on an int64 column, the
    four records of the end-to-end example and a few more frames and
    files, a small stand-in for the outlier model and one for
    [pd.to_datetime], used to run the model on concrete inputs. *)

Module Sample.

(** A result that leaves the int64 range wraps around. *)
Definition wrap (z : Z) : Z := ((z + 2 ^ 63) mod 2 ^ 64 - 2 ^ 63)%Z.

Definition total (l : list Z) : Z := wrap (fold_right Z.add 0%Z l).

(** The mean of an int64 column is a float64, which rounds the quotient
    given here. *)
Definition quotient (l : list Z) : Q :=
  (inject_Z (fold_right Z.add 0%Z l) / inject_Z (Z.of_nat (List.length l)))%Q.

#[global] Instance int64 : Arith := {|
  num := Z;
  of_int := wrap;
  gt := fun x y => (y <? x)%Z;
  sub := fun x y => wrap (x - y);
  sum_values := total;
  group_values := total;
  average := Q;
  mean_values := quotient;
  times := fun a k => (a * inject_Z k)%Q
|}.

Definition coffee : ExpenseRecord :=
  mkRecord (Stamp (mkTimestamp 2025 1 1)) (Text "Uncategorized")
           (Amount 5%Z) (Text "Coffee shop") None None None.
Definition flight : ExpenseRecord :=
  mkRecord (Stamp (mkTimestamp 2025 1 2)) (Text "Uncategorized")
           (Amount 320%Z) (Text "Flight ticket") None None None.
Definition electric : ExpenseRecord :=
  mkRecord (Stamp (mkTimestamp 2025 1 3)) (Text "Uncategorized")
           (Amount 75%Z) (Text "Electric bill") None None None.
Definition movie : ExpenseRecord :=
  mkRecord (Stamp (mkTimestamp 2025 1 4)) (Text "Uncategorized")
           (Amount 18%Z) (Text "Movie ticket") None None None.

Definition rows : list ExpenseRecord := [coffee; flight; electric; movie].

(** The labels of the stand-in: -1 for an amount above 300.  A text among
    the features is refused, as the library's conversion to floats
    does. *)
Fixpoint labels (fs : list features) : result (list Z) :=
  match fs with
  | [] => inr []
  | (Amount x, _, _) :: rest =>
      match labels rest with
      | inl e => inl e
      | inr ls => inr ((if (x <=? 300)%Z then 1%Z else (-1)%Z) :: ls)
      end
  | (AmountText _, _, _) :: _ =>
      inl (ModelError "could not convert string to float")
  end.

(** The stand-in for [fit_predict]; it refuses an empty sample, as the
    library's input validation does. *)
Definition threshold_model (fs : list features) : result (list Z) :=
  match fs with
  | [] => inl (ModelError "Found array with 0 sample(s)")
  | _ :: _ => labels fs
  end.

(** An analyzer right after construction, and after the frame is stored. *)
Definition fresh : ExpenseAnalyzer := init threshold_model.
Definition loaded : ExpenseAnalyzer := set_data (Some rows) fresh.

(** The same analyzer with no rows in its frame. *)
Definition loaded_empty : ExpenseAnalyzer := set_data (Some []) fresh.

(** The analyzer after the categorizer has run on the four records. *)
Definition categorized : ExpenseAnalyzer := snd (auto_categorize loaded).

(** A frame in which one description cell was left empty in the file. *)
Definition cash : ExpenseRecord :=
  mkRecord (Stamp (mkTimestamp 2025 1 5)) (Text "Uncategorized")
           (Amount 12%Z) NaN None None None.
Definition undescribed : ExpenseAnalyzer :=
  set_data (Some [coffee; cash]) fresh.

(** A frame in which one category cell was left empty in the file. *)
Definition snack : ExpenseRecord :=
  mkRecord (Stamp (mkTimestamp 2025 2 1)) (Text "Food")
           (Amount 1%Z) (Text "Snack") None None None.
Definition stray : ExpenseRecord :=
  mkRecord (Stamp (mkTimestamp 2025 2 2)) NaN
           (Amount 5%Z) (Text "Bus fare") None None None.
Definition uncategorised : ExpenseAnalyzer :=
  set_data (Some [snack; stray]) fresh.

(** A frame in which one date cell was left empty in the file. *)
Definition dinner : ExpenseRecord :=
  mkRecord NaT (Text "Uncategorized") (Amount 30%Z) (Text "Dinner")
           None None None.
Definition undated : ExpenseAnalyzer :=
  set_data (Some [coffee; dinner]) fresh.

(** A frame with a description that is the empty text. *)
Definition blank : ExpenseRecord :=
  mkRecord (Stamp (mkTimestamp 2025 1 6)) (Text "Travel")
           (Amount 9%Z) (Text "") None None None.

(** A row of the category Entertainment, whose budget is 200. *)
Definition concert (x : Z) : ExpenseRecord :=
  mkRecord (Stamp (mkTimestamp 2025 3 1)) (Text "Entertainment")
           (Amount x) (Text "Concert") None None None.

(** A frame that spends 201 on entertainment. *)
Definition entertained : ExpenseAnalyzer :=
  set_data (Some [concert 120; snack; concert 81]) fresh.

(** A frame with travel expenses of three Januaries. *)
Definition taxi : ExpenseRecord :=
  mkRecord (Stamp (mkTimestamp 2024 1 15)) (Text "Travel")
           (Amount 40%Z) (Text "Taxi to the airport") None None None.
Definition train : ExpenseRecord :=
  mkRecord (Stamp (mkTimestamp 2025 1 20)) (Text "Travel")
           (Amount 60%Z) (Text "Train to the coast") None None None.
Definition shuttle : ExpenseRecord :=
  mkRecord (Stamp (mkTimestamp 2026 1 8)) (Text "Travel")
           (Amount 25%Z) (Text "Airport shuttle") None None None.
Definition travelled : ExpenseAnalyzer :=
  set_data (Some [taxi; train; shuttle]) fresh.

(** The frame of a second file, loaded into an analyzer that has already
    looked for anomalies in the first. *)
Definition second_file : list ExpenseRecord := [electric; movie].
Definition reloaded : ExpenseAnalyzer :=
  perform [Detect; Load second_file] loaded.

Definition digit (c : ascii) : option nat :=
  let n := nat_of_ascii c in
  if andb (48 <=? n)%nat (n <=? 57)%nat then Some (n - 48)%nat else None.

Fixpoint digits (s : string) (acc : nat) : option nat :=
  match s with
  | EmptyString => Some acc
  | String c s' =>
      match digit c with
      | Some d => digits s' (10 * acc + d)%nat
      | None => None
      end
  end.

Definition number (s : string) : option nat :=
  match s with
  | EmptyString => None
  | _ => digits s 0%nat
  end.

(** Dates written [YYYY-MM-DD]. *)
Definition iso_date (s : string) : option Timestamp :=
  match number (substring 0 4 s),
        number (substring 5 2 s),
        number (substring 8 2 s) with
  | Some y, Some m, Some d =>
      if (String.length s =? 10)%nat
         && String.eqb (substring 4 1 s) "-"
         && String.eqb (substring 7 1 s) "-"
         && (1 <=? m)%nat && (m <=? 12)%nat
         && (1 <=? d)%nat && (d <=? 31)%nat
      then Some (mkTimestamp y m d)
      else None
  | _, _, _ => None
  end.

(** The stand-in for [pd.to_datetime] on a column of such dates: an empty
    cell becomes NaT, a text that is no date raises. *)
Fixpoint iso_dates (cells : list cell) : result (list datetime) :=
  match cells with
  | [] => inr []
  | Text s :: rest =>
      match iso_date s with
      | None => inl (DateParseError s)
      | Some t =>
          match iso_dates rest with
          | inl e => inl e
          | inr ds => inr (Stamp t :: ds)
          end
      end
  | NaN :: rest =>
      match iso_dates rest with
      | inl e => inl e
      | inr ds => inr (NaT :: ds)
      end
  end.

(** The file of the end-to-end example. *)
Definition expenses_csv : RawFrame :=
  mkRaw ["date"; "category"; "amount"; "description"]
        [Text "2025-01-01"; Text "2025-01-02"; Text "2025-01-03";
         Text "2025-01-04"]
        [Text "Uncategorized"; Text "Uncategorized"; Text "Uncategorized";
         Text "Uncategorized"]
        [Amount 5%Z; Amount 320%Z; Amount 75%Z; Amount 18%Z]
        [Text "Coffee shop"; Text "Flight ticket"; Text "Electric bill";
         Text "Movie ticket"].

(** A file with one amount that is no number: [read_csv] keeps the whole
    column as text. *)
Definition bad_amount_csv : RawFrame :=
  mkRaw ["date"; "category"; "amount"; "description"]
        [Text "2025-01-01"; Text "2025-01-02"]
        [Text "Uncategorized"; Text "Uncategorized"]
        [AmountText "4.50"; AmountText "abc"]
        [Text "Coffee shop"; Text "Flight ticket"].

(** The frame that the loader makes of it. *)
Definition text_rows : list ExpenseRecord :=
  [ mkRecord (Stamp (mkTimestamp 2025 1 1)) (Text "Uncategorized")
             (AmountText "4.50") (Text "Coffee shop") None None None;
    mkRecord (Stamp (mkTimestamp 2025 1 2)) (Text "Uncategorized")
             (AmountText "abc") (Text "Flight ticket") None None None ].
Definition text_amounts : ExpenseAnalyzer := set_data (Some text_rows) fresh.

(** A file with one date that is no date. *)
Definition bad_date_csv : RawFrame :=
  mkRaw ["date"; "category"; "amount"; "description"]
        [Text "2025-01-01"; Text "soon"]
        [Text "Uncategorized"; Text "Uncategorized"]
        [Amount 5%Z; Amount 320%Z]
        [Text "Coffee shop"; Text "Flight ticket"].

(** A file without the amount column. *)
Definition no_amount_csv : RawFrame :=
  mkRaw ["date"; "category"; "description"]
        [Text "soon"] [Text "Food"] [] [Text "Coffee shop"].

End Sample.

(** * Vocabulary of the statements *)

(** ** Text *)

(** [low] is [s] with each of the letters A to Z replaced by the letter 32
    code points further on, and every other character kept. *)
Inductive lowercased : string -> string -> Prop :=
| lowercased_empty : lowercased "" ""
| lowercased_capital c c' s low :
    (65 <= nat_of_ascii c <= 90)%nat ->
    nat_of_ascii c' = (nat_of_ascii c + 32)%nat ->
    lowercased s low ->
    lowercased (String c s) (String c' low)
| lowercased_kept c s low :
    ~ (65 <= nat_of_ascii c <= 90)%nat ->
    lowercased s low ->
    lowercased (String c s) (String c low).

(** The text is made of ASCII characters only; on such a text [str.lower],
    [str.upper] and [str.capitalize] change nothing but the letters A to Z
    and a to z. *)
Fixpoint is_ascii (s : string) : bool :=
  match s with
  | EmptyString => true
  | String c s' => (nat_of_ascii c <? 128)%nat && is_ascii s'
  end.

(** ** Categorizer *)

(** Some keyword of the list occurs in the lower-cased description. *)
Definition keyword_occurs (keywords : list string) (lowered : string) : Prop :=
  exists kw a b, In kw keywords /\ lowered = (a ++ kw ++ b)%string.

(** [cat] is the first category of [table], in table order, one of whose
    keywords occurs in [lowered]; ["Other"] when there is none. *)
Inductive assigned (lowered : string)
  : list (string * list string) -> string -> Prop :=
| assigned_other : assigned lowered [] "Other"
| assigned_here cat keywords rest :
    keyword_occurs keywords lowered ->
    assigned lowered ((cat, keywords) :: rest) cat
| assigned_later cat keywords rest c :
    ~ keyword_occurs keywords lowered ->
    assigned lowered rest c ->
    assigned lowered ((cat, keywords) :: rest) c.

(** [cat] is the category due to the text [d]: the first one of the table
    with a keyword in [d] lower-cased, ["Other"] when no keyword of any
    category occurs there. *)
Definition first_match (table : list (string * list string))
                       (d cat : string) : Prop :=
  exists low,
    lowercased d low
    /\ assigned low table cat
    /\ (Forall (fun entry => ~ keyword_occurs (snd entry) low) table ->
        cat = "Other").

(** The text of a cell, the empty text for a missing one. *)
Definition text_of (c : cell) : string :=
  match c with
  | Text s => s
  | NaN => ""
  end.

(** Equality of two cells. *)
Definition cell_eqb (a b : cell) : bool :=
  match a, b with
  | Text s, Text t => String.eqb s t
  | NaN, NaN => true
  | _, _ => false
  end.

Section Vocabulary.

Context {arith : Arith}.

(** ** Frames *)

(** The description of the row is a text. *)
Definition described (r : ExpenseRecord) : bool :=
  match description r with
  | Text _ => true
  | NaN => false
  end.

(** The amount of the row is a number. *)
Definition numeric (r : ExpenseRecord) : bool :=
  match amount r with
  | Amount _ => true
  | AmountText _ => false
  end.

(** The row has a category. *)
Definition categorised (r : ExpenseRecord) : bool :=
  negb (cell_eqb (category r) NaN).

(** The category of the row is [name]. *)
Definition has_category (name : string) (r : ExpenseRecord) : bool :=
  cell_eqb (category r) (Text name).

(** ** Categorizer *)

(** How the categorizer relates a row to the row it stores in its place:
    only the category changes, and the new category is a text; for a
    description of ASCII text it is the category due to the description. *)
Definition recategorized (table : list (string * list string))
                         (r r' : ExpenseRecord) : Prop :=
  exists cat,
    r' = set_category (Text cat) r
    /\ forall d, description r = Text d -> is_ascii d = true ->
                 first_match table d cat.

(** The frame that the categorizer stores when every description is a
    text. *)
Definition recategorize (table : list (string * list string))
                        (rows : list ExpenseRecord) : list ExpenseRecord :=
  map (fun r => set_category
                  (Text (categorize_description table
                           (text_of (description r)))) r) rows.

(** ** Summarizer *)

(** The amounts of the frame, in row order. *)
Fixpoint amounts (rows : list ExpenseRecord) : list num :=
  match rows with
  | [] => []
  | r :: rest =>
      match amount r with
      | Amount x => x :: amounts rest
      | AmountText _ => amounts rest
      end
  end.

(** The amounts of the rows of one category, in row order. *)
Fixpoint amounts_of (cat : string) (rows : list ExpenseRecord) : list num :=
  match rows with
  | [] => []
  | r :: rest =>
      match amount r with
      | Amount x =>
          if has_category cat r then x :: amounts_of cat rest
          else amounts_of cat rest
      | AmountText _ => amounts_of cat rest
      end
  end.

(** The sum of some numbers as [Series.sum] forms it; the sum of no
    number is 0. *)
Definition sum_of (l : list num) : num :=
  match l with
  | [] => of_int 0
  | _ :: _ => sum_values l
  end.

(** What was spent in a category: the sum of its amounts as [groupby]
    forms it, 0 when the frame has no row of the category. *)
Definition spend (cat : string) (rows : list ExpenseRecord) : num :=
  match amounts_of cat rows with
  | [] => of_int 0
  | _ :: _ => group_values (amounts_of cat rows)
  end.

(** No number exceeds itself. *)
Definition gt_irreflexive : Prop := forall x : num, gt x x = false.

(** [gt] compares as a strict order does in which incomparable numbers
    can stand for each other. *)
Definition gt_ordered : Prop :=
  (forall x y z : num, gt x y = true -> gt y z = true -> gt x z = true)
  /\ (forall x y z : num, gt x y = false -> gt y z = false -> gt x z = false).

(** Sums are exact: they depend neither on the order of the values nor on
    their grouping, and [groupby] sums as [Series.sum] does. *)
Definition exact_sums : Prop :=
  (forall l l' : list num, Permutation l l' -> sum_values l = sum_values l')
  /\ (forall ls : list (list num),
        sum_values (map sum_values ls) = sum_values (List.concat ls))
  /\ (forall l : list num, group_values l = sum_values l).

(** The value that [generate_summary] returns on a frame of numeric
    amounts. *)
Definition summary_of (self : ExpenseAnalyzer) (rows : list ExpenseRecord)
  : Summary :=
  mkSummary (series_sum (amounts rows)) (series_mean (amounts rows))
            (groupby_sum rows)
            (match anomalies self with
             | Some a => List.length a
             | None => O
             end)
            (map (budget_entry (groupby_sum rows)) (budgets self)).

(** ** Anomaly detector *)

(** The features of a row: its amount, and the weekday and the month of
    its date, which a row without date does not have. *)
Definition features_by_date (r : ExpenseRecord) : features :=
  (amount r, dt_dayofweek (date r), dt_month (date r)).

(** The number of rows of the frame whose anomaly flag is set. *)
Definition flagged (rows : list ExpenseRecord) : nat :=
  List.length (filter is_outlier rows).

(** The anomalies kept by the analyzer are as many as the rows flagged in
    its frame. *)
Definition in_step (self : ExpenseAnalyzer) : Prop :=
  exists rows found,
    data self = Some rows /\ anomalies self = Some found
    /\ List.length found = flagged rows.

(** ** Loader *)

(** The four columns of the file have the same number of cells. *)
Definition aligned (df : RawFrame) : Prop :=
  List.length (category_cells df) = List.length (date_cells df)
  /\ List.length (amount_cells df) = List.length (date_cells df)
  /\ List.length (description_cells df) = List.length (date_cells df).

(** ** Report and upload *)

(** The value that [generate_report] returns on a frame of numeric
    amounts. *)
Definition report_of (self : ExpenseAnalyzer) (rows : list ExpenseRecord)
  : Report :=
  let summary := summary_of self rows in
  mkReport (total_expenses summary) (avg_expense summary)
           (anomaly_count summary) (category_breakdown summary)
           (budget_status summary)
           (match anomalies self with
            | Some (r :: rest) => AnomalyTable (map detailed (r :: rest))
            | _ => NoAnomaliesDetected
            end)
           (top_category (category_breakdown summary))
           (option_map (fun avg => times avg 3) (avg_expense summary)).

(** The charts that [visualize_data] has to draw for an analyzer. *)
Definition charts_due (self : ExpenseAnalyzer) : list Chart :=
  [ExpenseTrend; CategoryBreakdown]
  ++ match anomalies self with
     | Some (_ :: _) => [AnomalyScatter]
     | _ => []
     end.

(** The analyzer that [process_csv] builds and loads with [rows]. *)
Definition uploaded (fit_predict : list features -> result (list Z))
                    (rows : list ExpenseRecord) : ExpenseAnalyzer :=
  set_data (Some rows) (init fit_predict).

End Vocabulary.

(** * Properties *)

(** ** Text *)

Lemma prefix_append (k s : string) :
  String.prefix k s = true <-> exists b, s = (k ++ b)%string.
Proof.
  revert s; induction k as [|c k IH]; intros s.
  - split; [intros _; exists s; reflexivity | intros _; destruct s; reflexivity].
  - destruct s as [|d s]; simpl.
    + split; [discriminate | intros [b Hb]; discriminate].
    + destruct (ascii_dec c d) as [->|Hcd].
      * rewrite IH. split; intros [b Hb]; exists b; congruence.
      * split; [discriminate | intros [b Hb]; congruence].
Qed.

Lemma contains_nil (k : string) : contains k "" = String.prefix k "".
Proof. destruct k; reflexivity. Qed.

Lemma contains_cons (k : string) (c : ascii) (s : string) :
  contains k (String c s) = String.prefix k (String c s) || contains k s.
Proof.
  change (contains k (String c s))
    with (if String.prefix k (String c s) then true else contains k s).
  destruct (String.prefix k (String c s)); reflexivity.
Qed.

(** [contains] is the substring test of Python's [in]. *)
Lemma contains_substring (k s : string) :
  contains k s = true <-> exists a b, s = (a ++ k ++ b)%string.
Proof.
  induction s as [|c s IH].
  - rewrite contains_nil, prefix_append. split.
    + intros [b Hb]. exists "", b. exact Hb.
    + intros (a & b & Hab). destruct a; [|discriminate]. exists b. exact Hab.
  - rewrite contains_cons, orb_true_iff, prefix_append, IH. split.
    + intros [[b Hb] | (a & b & Hab)].
      * exists "", b. exact Hb.
      * exists (String c a), b. simpl. congruence.
    + intros (a & b & Hab). destruct a as [|c' a]; simpl in Hab.
      * left. exists b. exact Hab.
      * right. exists a, b. congruence.
Qed.

Lemma lower_ascii_idem (c : ascii) :
  lower_ascii (lower_ascii c) = lower_ascii c.
Proof.
  destruct c as [[] [] [] [] [] [] [] []]; reflexivity.
Qed.

Lemma lower_upper_ascii (c : ascii) :
  lower_ascii (upper_ascii c) = lower_ascii c.
Proof.
  destruct c as [[] [] [] [] [] [] [] []]; reflexivity.
Qed.

Lemma lower_idem (s : string) : lower (lower s) = lower s.
Proof.
  induction s as [|c s IH]; simpl; [reflexivity|].
  rewrite lower_ascii_idem, IH. reflexivity.
Qed.

Lemma lower_upper (s : string) : lower (upper s) = lower s.
Proof.
  induction s as [|c s IH]; simpl; [reflexivity|].
  rewrite lower_upper_ascii, IH. reflexivity.
Qed.

Lemma lower_capitalize (s : string) : lower (capitalize s) = lower s.
Proof.
  destruct s as [|c s]; simpl; [reflexivity|].
  rewrite lower_upper_ascii, lower_idem. reflexivity.
Qed.

(** [lower] turns the letters A to Z into a to z and keeps the rest. *)
Lemma lower_lowercased (s : string) : lowercased s (lower s).
Proof.
  induction s as [|c s IH]; simpl; [constructor|].
  unfold lower_ascii.
  destruct (andb (65 <=? nat_of_ascii c)%nat (nat_of_ascii c <=? 90)%nat)
    eqn:Hc.
  - apply andb_true_iff in Hc. destruct Hc as [H1 H2].
    apply Nat.leb_le in H1. apply Nat.leb_le in H2.
    apply lowercased_capital; [lia | | exact IH].
    apply nat_ascii_embedding. lia.
  - apply lowercased_kept; [|exact IH].
    intros [H1 H2]. apply Nat.leb_le in H1. apply Nat.leb_le in H2.
    rewrite H1, H2 in Hc. discriminate.
Qed.

(** Lower-casing has one result. *)
Lemma lowercased_unique (s low low' : string) :
  lowercased s low -> lowercased s low' -> low = low'.
Proof.
  intros H; revert low'.
  induction H as [|c c' s low Hc Hn _ IH|c s low Hc _ IH];
    intros low' H'; inversion H'; subst; try contradiction.
  - reflexivity.
  - f_equal; [|apply IH; assumption].
    rewrite <- (ascii_nat_embedding c'), <- (ascii_nat_embedding c'0).
    congruence.
  - f_equal. apply IH. assumption.
Qed.

(** ** Running a method *)

Lemma bind_returns {S A B : Type} (m : M S A) (k : A -> M S B)
      (self self' : S) (a : A) :
  m self = (inr a, self') -> bind m k self = k a self'.
Proof. intros H. unfold bind. rewrite H. reflexivity. Qed.

Lemma bind_raises {S A B : Type} (m : M S A) (k : A -> M S B)
      (self self' : S) (e : exn) :
  m self = (inl e, self') -> bind m k self = (inl e, self').
Proof. intros H. unfold bind. rewrite H. reflexivity. Qed.

(** ** Categorizer: one description *)

Lemma any_keyword_occurs (keywords : list string) (lowered : string) :
  any (fun keyword => contains keyword lowered) keywords = true
  <-> keyword_occurs keywords lowered.
Proof.
  unfold any, keyword_occurs. rewrite existsb_exists. split.
  - intros (kw & Hin & Hc). apply contains_substring in Hc.
    destruct Hc as (a & b & Hab). exists kw, a, b. auto.
  - intros (kw & a & b & Hin & Hab). exists kw. split; [exact Hin|].
    apply contains_substring. eauto.
Qed.

Lemma first_category_assigned table lowered :
  assigned lowered table (first_category table lowered).
Proof.
  induction table as [|[cat keywords] rest IH]; simpl.
  - constructor.
  - destruct (any _ keywords) eqn:Hany.
    + apply assigned_here. apply any_keyword_occurs. exact Hany.
    + apply assigned_later; [|exact IH].
      intros H. apply any_keyword_occurs in H. congruence.
Qed.

Lemma assigned_unique lowered table c1 c2 :
  assigned lowered table c1 -> assigned lowered table c2 -> c1 = c2.
Proof.
  intros H1; revert c2.
  induction H1; intros c2 H2; inversion H2; subst; auto; contradiction.
Qed.

Lemma first_category_no_match table lowered :
  Forall (fun entry => ~ keyword_occurs (snd entry) lowered) table ->
  first_category table lowered = "Other".
Proof.
  induction 1 as [|[cat keywords] rest Hno _ IH]; simpl; [reflexivity|].
  destruct (any _ keywords) eqn:Hany; [|exact IH].
  apply any_keyword_occurs in Hany. contradiction.
Qed.

Lemma first_category_in_keys table lowered :
  In (first_category table lowered) (map fst table ++ ["Other"]).
Proof.
  induction table as [|[cat keywords] rest IH]; simpl.
  - left; reflexivity.
  - destruct (any _ keywords); [left; reflexivity | right; exact IH].
Qed.

(** The category that [categorize_description] returns is the one due to
    the description. *)
Lemma categorize_description_first_match table d :
  first_match table d (categorize_description table d).
Proof.
  exists (lower d). split; [apply lower_lowercased|].
  split; [apply first_category_assigned | apply first_category_no_match].
Qed.

(** X1.  The category of a description does not depend on the case of its
    letters: the description in upper case, in lower case or capitalised is
    categorised as the description itself, whatever the keyword table. *)
Theorem categorize_ignores_case
        (table : list (string * list string)) (description : string) :
  categorize_description table (upper description)
  = categorize_description table description
  /\ categorize_description table (lower description)
     = categorize_description table description
  /\ categorize_description table (capitalize description)
     = categorize_description table description.
Proof.
  unfold categorize_description.
  rewrite lower_upper, lower_idem, lower_capitalize. auto.
Qed.

(** ** Categorizer: the frame *)

Section CategorizerFacts.

Context {arith : Arith}.

(** The category column that the categorizer computes. *)
Lemma apply_categorize_described table (rows : list ExpenseRecord) :
  forallb described rows = true ->
  apply_categorize table (map description rows)
  = inr (map (fun r => categorize_description table (text_of (description r)))
             rows).
Proof.
  induction rows as [|r rows IH]; simpl; [reflexivity|].
  unfold described at 1. destruct (description r) as [d|]; [|discriminate].
  simpl. intros H. rewrite (IH H). reflexivity.
Qed.

Lemma apply_categorize_undescribed table (rows : list ExpenseRecord) :
  forallb described rows = false ->
  apply_categorize table (map description rows)
  = inl (AttributeError no_lower_msg).
Proof.
  induction rows as [|r rows IH]; simpl; [discriminate|].
  unfold described at 1. destruct (description r) as [d|]; [|reflexivity].
  simpl. intros H. rewrite (IH H). reflexivity.
Qed.

Lemma with_category_column_map (f : ExpenseRecord -> string)
      (rows : list ExpenseRecord) :
  with_category_column rows (map f rows)
  = map (fun r => set_category (Text (f r)) r) rows.
Proof.
  unfold with_category_column.
  induction rows as [|r rows IH]; simpl; [reflexivity|].
  rewrite IH. reflexivity.
Qed.

(** What [auto_categorize] does to a frame whose descriptions are texts. *)
Lemma auto_categorize_loaded self rows :
  data self = Some rows ->
  forallb described rows = true ->
  auto_categorize self =
    (inr tt,
     set_data (Some (recategorize (category_keywords self) rows)) self).
Proof.
  intros Hd Hall.
  unfold auto_categorize, require_data, bind, read, assign, ret, call.
  rewrite Hd. rewrite (apply_categorize_described _ _ Hall).
  rewrite with_category_column_map. reflexivity.
Qed.

(** What it does when a description is missing. *)
Lemma auto_categorize_undescribed self rows :
  data self = Some rows ->
  forallb described rows = false ->
  auto_categorize self = (inl (AttributeError no_lower_msg), self).
Proof.
  intros Hd Hall.
  unfold auto_categorize, require_data, bind, read, assign, ret, call.
  rewrite Hd. rewrite (apply_categorize_undescribed _ _ Hall). reflexivity.
Qed.

Lemma auto_categorize_not_loaded self :
  data self = None ->
  auto_categorize self = (inl (ValueError no_data_msg), self).
Proof.
  intros Hd. unfold auto_categorize, require_data, bind, read, raise.
  rewrite Hd. reflexivity.
Qed.

Lemma recategorized_map table rows :
  Forall2 (recategorized table) rows (recategorize table rows).
Proof.
  induction rows as [|r rows IH]; simpl; constructor; [|exact IH].
  exists (categorize_description table (text_of (description r))).
  split; [reflexivity|].
  intros d Hd _. rewrite Hd. simpl.
  apply categorize_description_first_match.
Qed.

Lemma recategorize_ignores_category table (c0 : cell) rows :
  recategorize table (map (set_category c0) rows) = recategorize table rows.
Proof.
  unfold recategorize. rewrite map_map. apply map_ext. intros r. reflexivity.
Qed.

Lemma described_set_category (c0 : cell) rows :
  forallb described (map (set_category c0) rows) = forallb described rows.
Proof.
  induction rows as [|r rows IH]; simpl; [reflexivity|].
  rewrite IH. reflexivity.
Qed.

Lemma described_recategorize table rows :
  forallb described (recategorize table rows) = forallb described rows.
Proof.
  induction rows as [|r rows IH]; simpl; [reflexivity|].
  rewrite IH. reflexivity.
Qed.

Lemma recategorize_twice table rows :
  recategorize table (recategorize table rows) = recategorize table rows.
Proof.
  unfold recategorize. rewrite map_map. apply map_ext. intros r. reflexivity.
Qed.

(** C1, amended.  With the keyword table that the analyzer is built with,
    the categories are tried in the order Food, Travel, Utilities,
    Entertainment.  On a stored frame whose descriptions are all texts the
    categorizer returns and replaces every row by the same row with a new
    category, whatever category the row had: for a description of ASCII
    text it is the first category one of whose keywords is a substring of
    the description with its letters A to Z lower-cased, and "Other" when
    no keyword occurs there, so for the empty text.  On a frame in which
    the description of some row is missing the categorizer raises an
    [AttributeError] and changes nothing. *)
Theorem auto_categorize_first_match
        (self : ExpenseAnalyzer) (rows : list ExpenseRecord) :
  data self = Some rows ->
  category_keywords self = default_category_keywords ->
  map fst (category_keywords self)
    = ["Food"; "Travel"; "Utilities"; "Entertainment"]
  /\ (forallb described rows = true ->
      exists rows',
        auto_categorize self = (inr tt, set_data (Some rows') self)
        /\ Forall2 (recategorized (category_keywords self)) rows rows'
        /\ Forall2 (fun r r' => description r = Text "" ->
                                category r' = Text "Other")
                   rows rows'
        /\ forall c0 : cell,
             auto_categorize
               (set_data (Some (map (set_category c0) rows)) self)
             = (inr tt, set_data (Some rows') self))
  /\ (forallb described rows = false ->
      exists msg,
        auto_categorize self = (inl (AttributeError msg), self)).
Proof.
  intros Hd Ht. split; [rewrite Ht; reflexivity|]. split.
  - intros Hall. eexists.
    split; [apply (auto_categorize_loaded _ rows); assumption|].
    split; [apply recategorized_map|]. split.
    + rewrite Ht. clear Hd Hall.
      induction rows as [|r rows IH]; simpl; constructor.
      * intros He. rewrite He. reflexivity.
      * exact IH.
    + intros c0.
      rewrite (auto_categorize_loaded _ (map (set_category c0) rows))
        by (try reflexivity; rewrite described_set_category; exact Hall).
      simpl. rewrite recategorize_ignores_category. reflexivity.
  - intros Hall. exists no_lower_msg.
    apply (auto_categorize_undescribed _ rows); assumption.
Qed.

(** C2, amended.  On a stored frame whose descriptions are all texts the
    categorizer returns, keeps the number of rows and leaves in every row
    a category that is a key of the keyword table or "Other"; with the
    table that the analyzer is built with, one of Food, Travel, Utilities,
    Entertainment and Other.  When the description of some row is missing
    it raises and the frame keeps the categories it had. *)
Theorem category_in_keys_or_other
        (self : ExpenseAnalyzer) (rows : list ExpenseRecord) :
  data self = Some rows ->
  (forallb described rows = true ->
   exists rows',
     auto_categorize self = (inr tt, set_data (Some rows') self)
     /\ List.length rows' = List.length rows
     /\ Forall (fun r => exists c,
                  category r = Text c
                  /\ In c (map fst (category_keywords self) ++ ["Other"]))
               rows'
     /\ (category_keywords self = default_category_keywords ->
         Forall (fun r => exists c,
                   category r = Text c
                   /\ In c ["Food"; "Travel"; "Utilities"; "Entertainment";
                            "Other"])
                rows'))
  /\ (forallb described rows = false ->
      (exists msg, fst (auto_categorize self) = inl (AttributeError msg))
      /\ data (snd (auto_categorize self)) = Some rows).
Proof.
  intros Hd. split.
  - intros Hall. eexists.
    split; [apply (auto_categorize_loaded _ rows); assumption|].
    split; [unfold recategorize; apply length_map|].
    assert (H : Forall (fun r => exists c,
                  category r = Text c
                  /\ In c (map fst (category_keywords self) ++ ["Other"]))
                (recategorize (category_keywords self) rows)).
    { apply Forall_forall. intros r' Hin. apply in_map_iff in Hin.
      destruct Hin as (r & <- & _). simpl. eexists.
      split; [reflexivity|]. apply first_category_in_keys. }
    split; [exact H|].
    intros Ht. rewrite Ht in H |- *. exact H.
  - intros Hall. rewrite (auto_categorize_undescribed _ rows Hd Hall).
    simpl. split; [exists no_lower_msg; reflexivity | exact Hd].
Qed.

(** X2.  Running the categorizer a second time changes nothing: the second
    call has the outcome of the first and leaves the analyzer as the first
    call left it (also when both calls raise). *)
Theorem auto_categorize_idempotent (self : ExpenseAnalyzer) :
  auto_categorize (snd (auto_categorize self)) = auto_categorize self.
Proof.
  destruct (data self) as [rows|] eqn:Hd.
  - destruct (forallb described rows) eqn:Hall.
    + rewrite (auto_categorize_loaded _ _ Hd Hall). simpl.
      erewrite auto_categorize_loaded;
        [|reflexivity | rewrite described_recategorize; exact Hall].
      simpl. rewrite recategorize_twice. reflexivity.
    + rewrite (auto_categorize_undescribed _ _ Hd Hall). simpl.
      apply (auto_categorize_undescribed _ rows); assumption.
  - rewrite (auto_categorize_not_loaded _ Hd). simpl.
    apply auto_categorize_not_loaded. exact Hd.
Qed.

End CategorizerFacts.

(** The claim C1 fails on the code: a row whose description cell was empty
    in the file makes the categorizer raise. *)
Lemma missing_description_raises :
  data Sample.undescribed = Some [Sample.coffee; Sample.cash]
  /\ description Sample.cash = NaN
  /\ auto_categorize Sample.undescribed
     = (inl (AttributeError no_lower_msg), Sample.undescribed).
Proof. repeat split. Qed.

Lemma auto_categorize_first_match_witness :
  map fst (category_keywords Sample.loaded)
    = ["Food"; "Travel"; "Utilities"; "Entertainment"]
  /\ exists rows',
       auto_categorize Sample.loaded
         = (inr tt, set_data (Some rows') Sample.loaded)
       /\ Forall2 (recategorized (category_keywords Sample.loaded))
                  Sample.rows rows'
       /\ Forall2 (fun r r' => description r = Text "" ->
                               category r' = Text "Other")
                  Sample.rows rows'
       /\ forall c0 : cell,
            auto_categorize
              (set_data (Some (map (set_category c0) Sample.rows))
                        Sample.loaded)
            = (inr tt, set_data (Some rows') Sample.loaded).
Proof.
  destruct (auto_categorize_first_match Sample.loaded Sample.rows
              eq_refl eq_refl) as (Horder & Htexts & _).
  split; [exact Horder | apply Htexts; reflexivity].
Defined.

(** The claim C2 fails on the code: after the categorizer has run, and
    raised, on a frame with a missing description, the rows still carry
    the category of the file, which is no key of the table. *)
Lemma categories_kept_when_categorizer_raises :
  fst (auto_categorize Sample.undescribed)
    = inl (AttributeError no_lower_msg)
  /\ data (snd (auto_categorize Sample.undescribed))
     = Some [Sample.coffee; Sample.cash]
  /\ category Sample.coffee = Text "Uncategorized"
  /\ ~ In "Uncategorized"
          (map fst (category_keywords Sample.undescribed) ++ ["Other"]).
Proof.
  repeat split. simpl. intuition discriminate.
Qed.

Lemma category_in_keys_or_other_witness :
  exists rows',
    auto_categorize Sample.loaded
      = (inr tt, set_data (Some rows') Sample.loaded)
    /\ List.length rows' = List.length Sample.rows
    /\ Forall (fun r => exists c,
                 category r = Text c
                 /\ In c (map fst (category_keywords Sample.loaded)
                          ++ ["Other"]))
              rows'
    /\ (category_keywords Sample.loaded = default_category_keywords ->
        Forall (fun r => exists c,
                  category r = Text c
                  /\ In c ["Food"; "Travel"; "Utilities"; "Entertainment";
                           "Other"])
               rows').
Proof.
  destruct (category_in_keys_or_other Sample.loaded Sample.rows eq_refl)
    as (Htexts & _).
  apply Htexts. reflexivity.
Defined.

(** The four records of the example get Food, Travel, Utilities and
    Entertainment; a description that is the empty text gets Other,
    whatever category the row had. *)
Example sample_categories :
  option_map (map category)
    (data (snd (auto_categorize
                  (set_data (Some (Sample.rows ++ [Sample.blank]))
                            Sample.fresh))))
  = Some [Text "Food"; Text "Travel"; Text "Utilities";
          Text "Entertainment"; Text "Other"].
Proof. reflexivity. Qed.

(** ** Summarizer: order of the keys *)

Lemma compare_lt_trans (a b c : string) :
  String.compare a b = Lt -> String.compare b c = Lt ->
  String.compare a c = Lt.
Proof.
  intros Hab Hbc.
  exact (@StrictOrder_Transitive _ _ String_as_OT.lt_strorder a b c Hab Hbc).
Qed.

Lemma compare_lt_neq (a b : string) : String.compare a b = Lt -> a <> b.
Proof.
  intros Hab ->.
  exact (@StrictOrder_Irreflexive _ _ String_as_OT.lt_strorder b Hab).
Qed.

Lemma compare_gt_lt (a b : string) :
  String.compare a b = Gt -> String.compare b a = Lt.
Proof.
  intros H. rewrite String.compare_antisym, H. reflexivity.
Qed.

Lemma insert_key_in (k k' : string) (keys : list string) :
  In k' (insert_key k keys) <-> k' = k \/ In k' keys.
Proof.
  induction keys as [|k1 keys IH]; simpl.
  - intuition.
  - destruct (String.compare k k1) eqn:Hc; simpl.
    + apply String.compare_eq_iff in Hc. subst k1. intuition.
    + intuition.
    + rewrite IH. intuition.
Qed.

Lemma insert_key_sorted (k : string) (keys : list string) :
  StronglySorted (fun a b => String.compare a b = Lt) keys ->
  StronglySorted (fun a b => String.compare a b = Lt) (insert_key k keys).
Proof.
  induction 1 as [|k1 keys Hs IH Hall]; simpl.
  - repeat constructor.
  - destruct (String.compare k k1) eqn:Hc.
    + constructor; assumption.
    + constructor.
      * constructor; assumption.
      * constructor; [exact Hc|].
        eapply Forall_impl; [|exact Hall].
        intros k2 H12. eapply compare_lt_trans; eassumption.
    + constructor; [exact IH|].
      apply Forall_forall. intros k2 Hin.
      apply insert_key_in in Hin. destruct Hin as [->|Hin].
      * apply compare_gt_lt. exact Hc.
      * rewrite Forall_forall in Hall. apply Hall. exact Hin.
Qed.

Lemma sorted_nodup (keys : list string) :
  StronglySorted (fun a b => String.compare a b = Lt) keys -> NoDup keys.
Proof.
  induction 1 as [|k keys Hs IH Hall]; constructor; [|exact IH].
  intros Hin. rewrite Forall_forall in Hall.
  exact (compare_lt_neq _ _ (Hall _ Hin) eq_refl).
Qed.

Lemma cell_eqb_eq (a b : cell) : cell_eqb a b = true <-> a = b.
Proof.
  destruct a as [s|], b as [t|]; simpl.
  - rewrite String.eqb_eq. split; congruence.
  - split; discriminate.
  - split; discriminate.
  - tauto.
Qed.

(** ** Summarizer *)

Section SummarizerFacts.

Context {arith : Arith}.

Lemma require_data_loaded self rows :
  data self = Some rows -> require_data self = (inr rows, self).
Proof.
  intros Hd. unfold require_data, bind, read. rewrite Hd. reflexivity.
Qed.

Lemma require_data_not_loaded self :
  data self = None ->
  require_data self = (inl (ValueError no_data_msg), self).
Proof.
  intros Hd. unfold require_data, bind, read. rewrite Hd. reflexivity.
Qed.

(** *** The amount column *)

Lemma numeric_column_numbers (rows : list ExpenseRecord) :
  forallb numeric rows = true ->
  numeric_column (map amount rows) = inr (amounts rows).
Proof.
  induction rows as [|r rows IH]; simpl; [reflexivity|].
  unfold numeric at 1. destruct (amount r) as [x|t]; [|discriminate].
  simpl. intros H. rewrite (IH H). reflexivity.
Qed.

Lemma numeric_column_text (rows : list ExpenseRecord) :
  forallb numeric rows = false ->
  numeric_column (map amount rows) = inl (TypeError not_numeric_msg).
Proof.
  induction rows as [|r rows IH]; simpl; [discriminate|].
  unfold numeric at 1. destruct (amount r) as [x|t]; [|reflexivity].
  simpl. intros H. rewrite (IH H). reflexivity.
Qed.

Lemma numeric_in (rows : list ExpenseRecord) (r : ExpenseRecord) :
  forallb numeric rows = true -> In r rows -> exists x, amount r = Amount x.
Proof.
  intros Hall Hin. rewrite forallb_forall in Hall. specialize (Hall r Hin).
  unfold numeric in Hall. destruct (amount r) as [x|t]; [eauto|discriminate].
Qed.

Lemma sum_of_values (l : list num) :
  l <> [] -> sum_of l = sum_values l.
Proof. destruct l; [congruence | reflexivity]. Qed.

Lemma series_sum_sum_of (l : list num) : series_sum l = sum_of l.
Proof. destruct l; reflexivity. Qed.

(** *** The summary of a stored frame *)

Lemma generate_summary_loaded self rows :
  data self = Some rows ->
  forallb numeric rows = true ->
  generate_summary self = (inr (summary_of self rows), self).
Proof.
  intros Hd Hnum. unfold generate_summary.
  rewrite (bind_returns _ _ _ _ _ (require_data_loaded _ _ Hd)).
  unfold bind, call, read, ret.
  rewrite (numeric_column_numbers _ Hnum). reflexivity.
Qed.

Lemma generate_summary_text self rows :
  data self = Some rows ->
  forallb numeric rows = false ->
  generate_summary self = (inl (TypeError not_numeric_msg), self).
Proof.
  intros Hd Hnum. unfold generate_summary.
  rewrite (bind_returns _ _ _ _ _ (require_data_loaded _ _ Hd)).
  unfold bind, call, read, ret.
  rewrite (numeric_column_text _ Hnum). reflexivity.
Qed.

Lemma generate_summary_not_loaded self :
  data self = None ->
  generate_summary self = (inl (ValueError no_data_msg), self).
Proof.
  intros Hd. unfold generate_summary.
  apply bind_raises. apply require_data_not_loaded. exact Hd.
Qed.

(** Whatever its outcome, [generate_summary] assigns to no attribute. *)
Lemma generate_summary_keeps_analyzer (self : ExpenseAnalyzer) :
  snd (generate_summary self) = self.
Proof.
  destruct (data self) as [rows|] eqn:Hd.
  - destruct (forallb numeric rows) eqn:Hnum.
    + rewrite (generate_summary_loaded _ _ Hd Hnum). reflexivity.
    + rewrite (generate_summary_text _ _ Hd Hnum). reflexivity.
  - rewrite (generate_summary_not_loaded _ Hd). reflexivity.
Qed.

(** *** Grouping *)

Lemma group_keys_from (rows : list ExpenseRecord) (acc : list string)
      (k : string) :
  In k (fold_left (fun keys r =>
                     match category r with
                     | Text c => insert_key c keys
                     | NaN => keys
                     end) rows acc)
  <-> (exists r, In r rows /\ category r = Text k) \/ In k acc.
Proof.
  revert acc; induction rows as [|r rows IH]; intros acc; simpl.
  - split; [auto | intros [(r & [] & _)|H]; exact H].
  - rewrite IH. destruct (category r) as [c|] eqn:Hc.
    + rewrite insert_key_in. split.
      * intros [(r' & Hin & Hr')|[->|Hin]]; eauto.
      * intros [(r' & [<-|Hin] & Hr')|Hin]; eauto.
        right. left. congruence.
    + split.
      * intros [(r' & Hin & Hr')|Hin]; eauto.
      * intros [(r' & [<-|Hin] & Hr')|Hin]; eauto. congruence.
Qed.

(** The keys of the groups are the categories that occur in the frame. *)
Lemma group_keys_in (rows : list ExpenseRecord) (k : string) :
  In k (group_keys rows) <-> exists r, In r rows /\ category r = Text k.
Proof.
  unfold group_keys. rewrite group_keys_from. simpl. tauto.
Qed.

Lemma group_keys_sorted (rows : list ExpenseRecord) :
  StronglySorted (fun a b => String.compare a b = Lt) (group_keys rows).
Proof.
  unfold group_keys.
  assert (H : forall acc,
            StronglySorted (fun a b => String.compare a b = Lt) acc ->
            StronglySorted (fun a b => String.compare a b = Lt)
              (fold_left (fun keys r =>
                            match category r with
                            | Text c => insert_key c keys
                            | NaN => keys
                            end) rows acc)).
  { induction rows as [|r rows IH]; intros acc Hs; simpl; [exact Hs|].
    apply IH. destruct (category r); [apply insert_key_sorted|]; exact Hs. }
  apply H. constructor.
Qed.

Lemma category_is_has_category (k : string) (r : ExpenseRecord) :
  category_is k r = has_category k r.
Proof.
  unfold category_is, has_category. destruct (category r); reflexivity.
Qed.

Lemma has_category_text (k : string) (r : ExpenseRecord) :
  has_category k r = true <-> category r = Text k.
Proof. unfold has_category. apply cell_eqb_eq. Qed.

(** The numbers of a group are the amounts of its category. *)
Lemma values_group (k : string) (rows : list ExpenseRecord) :
  values (group k rows) = amounts_of k rows.
Proof.
  unfold group, values.
  induction rows as [|r rows IH]; simpl; [reflexivity|].
  rewrite category_is_has_category.
  destruct (has_category k r); simpl; rewrite IH;
    destruct (amount r); reflexivity.
Qed.

Lemma amounts_of_absent (k : string) (rows : list ExpenseRecord) :
  (forall r, In r rows -> category r <> Text k) -> amounts_of k rows = [].
Proof.
  induction rows as [|r rows IH]; simpl; [reflexivity|]. intros H.
  assert (Hr : has_category k r = false).
  { destruct (has_category k r) eqn:Hc; [|reflexivity].
    apply has_category_text in Hc. exfalso. exact (H r (or_introl eq_refl) Hc). }
  rewrite Hr. rewrite IH by (intros r' Hin; apply H; right; exact Hin).
  destruct (amount r); reflexivity.
Qed.

Lemma amounts_of_present (k : string) (rows : list ExpenseRecord)
      (r : ExpenseRecord) :
  forallb numeric rows = true -> In r rows -> category r = Text k ->
  amounts_of k rows <> [].
Proof.
  induction rows as [|r1 rows IH]; simpl; [tauto|].
  intros Hall [<-|Hin] Hc.
  - apply andb_true_iff in Hall. destruct Hall as [Hn _].
    unfold numeric in Hn. destruct (amount r1); [|discriminate].
    apply has_category_text in Hc. rewrite Hc. discriminate.
  - apply andb_true_iff in Hall. destruct Hall as [Hn Hall].
    unfold numeric in Hn. destruct (amount r1); [|discriminate].
    destruct (has_category k r1); [discriminate|]. apply IH; assumption.
Qed.

Lemma groupby_sum_entries (rows : list ExpenseRecord) (k : string) (v : num) :
  In (k, v) (groupby_sum rows)
  <-> (exists r, In r rows /\ category r = Text k)
      /\ v = group_values (amounts_of k rows).
Proof.
  unfold groupby_sum. rewrite in_map_iff. split.
  - intros (k' & Heq & Hin). inversion Heq; subst.
    rewrite values_group. split; [apply group_keys_in; exact Hin | reflexivity].
  - intros [Hin ->]. exists k. rewrite values_group.
    split; [reflexivity | apply group_keys_in; exact Hin].
Qed.

Lemma groupby_sum_keys (rows : list ExpenseRecord) :
  map fst (groupby_sum rows) = group_keys rows.
Proof.
  unfold groupby_sum. rewrite map_map. simpl. apply map_id.
Qed.

Lemma series_get_keys (f : string -> num) (k : string) (d : num)
      (keys : list string) :
  series_get k d (map (fun k' => (k', f k')) keys)
  = if mem k keys then f k else d.
Proof.
  unfold mem. induction keys as [|k1 keys IH]; simpl; [reflexivity|].
  destruct (String.eqb k k1) eqn:Hk; simpl; [|exact IH].
  apply String.eqb_eq in Hk. subst k1. reflexivity.
Qed.

Lemma mem_in (k : string) (keys : list string) :
  mem k keys = true <-> In k keys.
Proof.
  unfold mem. rewrite existsb_exists. split.
  - intros (k' & Hin & Hk). apply String.eqb_eq in Hk. subst. exact Hin.
  - intros Hin. exists k. split; [exact Hin | apply String.eqb_refl].
Qed.

(** What [series.get] finds for a category is what was spent in it. *)
Lemma series_get_spend (rows : list ExpenseRecord) (k : string) :
  forallb numeric rows = true ->
  series_get k (of_int 0) (groupby_sum rows) = spend k rows.
Proof.
  intros Hnum. unfold groupby_sum, spend.
  rewrite (series_get_keys (fun k' => group_values (values (group k' rows)))).
  rewrite values_group.
  destruct (mem k (group_keys rows)) eqn:Hm.
  - apply mem_in in Hm. apply group_keys_in in Hm.
    destruct Hm as (r & Hin & Hc).
    pose proof (amounts_of_present k rows r Hnum Hin Hc) as Hne.
    destruct (amounts_of k rows); [congruence | reflexivity].
  - rewrite amounts_of_absent; [reflexivity|].
    intros r Hin Hc.
    assert (Hk : In k (group_keys rows)) by (apply group_keys_in; eauto).
    apply mem_in in Hk. congruence.
Qed.

Lemma budget_status_entry breakdown table cat st :
  In (cat, st) (map (budget_entry breakdown) table) ->
  exists bud,
    In (cat, bud) table
    /\ st = mkStatus bud (series_get cat (of_int 0) breakdown)
                     (sub bud (series_get cat (of_int 0) breakdown))
                     (if gt (series_get cat (of_int 0) breakdown) bud
                      then "Over budget" else "Within budget").
Proof.
  intros Hin. apply in_map_iff in Hin. destruct Hin as ([c bud] & Heq & Hin).
  unfold budget_entry in Heq. inversion Heq; subst. exists bud. auto.
Qed.

Lemma budget_status_keys breakdown table :
  map fst (map (budget_entry breakdown) table) = map fst table.
Proof.
  rewrite map_map. apply map_ext. intros [c bud]. reflexivity.
Qed.

(** *** Totals *)

Lemma concat_insert (f : string -> list num) (c : string) (x : num)
      (keys : list string) :
  NoDup keys -> In c keys ->
  Permutation
    (List.concat (map (fun k => if String.eqb c k then x :: f k else f k)
                      keys))
    (x :: List.concat (map f keys)).
Proof.
  induction 1 as [|k keys Hnot Hnd IH]; simpl; [tauto|].
  intros [->|Hin].
  - rewrite String.eqb_refl. simpl. apply perm_skip.
    apply Permutation_app_head.
    assert (Heq : map (fun k => if String.eqb c k then x :: f k else f k) keys
                  = map f keys).
    { apply map_ext_in. intros k Hk.
      destruct (String.eqb c k) eqn:Hck; [|reflexivity].
      apply String.eqb_eq in Hck. subst k. contradiction. }
    rewrite Heq. apply Permutation_refl.
  - assert (Hck : String.eqb c k = false).
    { apply String.eqb_neq. intros ->. contradiction. }
    rewrite Hck.
    eapply Permutation_trans;
      [apply Permutation_app_head; apply IH; exact Hin|].
    apply Permutation_sym. apply Permutation_middle.
Qed.

(** The groups of a frame in which every row has a category share out
    its amounts. *)
Lemma amounts_partition (keys : list string) (rows : list ExpenseRecord) :
  NoDup keys ->
  (forall r, In r rows -> exists c, category r = Text c /\ In c keys) ->
  Permutation (List.concat (map (fun k => amounts_of k rows) keys))
              (amounts rows).
Proof.
  intros Hnd. induction rows as [|r rows IH]; intros Hcov; simpl.
  - clear Hnd Hcov. induction keys as [|k keys IHk]; simpl;
      [constructor | exact IHk].
  - assert (IH' : Permutation
                    (List.concat (map (fun k => amounts_of k rows) keys))
                    (amounts rows))
      by (apply IH; intros r' Hin; apply Hcov; right; exact Hin).
    destruct (amount r) as [x|t]; [|exact IH'].
    destruct (Hcov r (or_introl eq_refl)) as (c & Hc & Hin).
    assert (Heq : map (fun k => if has_category k r
                                then x :: amounts_of k rows
                                else amounts_of k rows) keys
                  = map (fun k => if String.eqb c k
                                  then x :: amounts_of k rows
                                  else amounts_of k rows) keys).
    { apply map_ext. intros k. unfold has_category. rewrite Hc. reflexivity. }
    rewrite Heq.
    eapply Permutation_trans; [apply concat_insert; assumption|].
    apply perm_skip. exact IH'.
Qed.

(** With exact sums the per-category totals of a frame in which every row
    has a category add up to the total. *)
Lemma breakdown_adds_up (rows : list ExpenseRecord) :
  exact_sums ->
  forallb numeric rows = true ->
  forallb categorised rows = true ->
  sum_of (map snd (groupby_sum rows)) = sum_of (amounts rows).
Proof.
  intros (Hperm & Hflat & Hgroup) Hnum Hcat.
  destruct rows as [|r0 rows0]; [reflexivity|].
  remember (r0 :: rows0) as rows eqn:Hrows.
  assert (Hcov : forall r, In r rows ->
                   exists c, category r = Text c /\ In c (group_keys rows)).
  { intros r Hin. rewrite forallb_forall in Hcat. specialize (Hcat r Hin).
    unfold categorised in Hcat.
    destruct (category r) as [c|] eqn:Hc; [|discriminate].
    exists c. split; [reflexivity|]. apply group_keys_in. eauto. }
  assert (Hvals : map snd (groupby_sum rows)
                  = map sum_values
                        (map (fun k => amounts_of k rows) (group_keys rows))).
  { unfold groupby_sum. rewrite !map_map. apply map_ext. intros k. simpl.
    rewrite values_group. apply Hgroup. }
  rewrite Hvals.
  assert (Hkeys : group_keys rows <> []).
  { destruct (Hcov r0) as (c & _ & Hin); [rewrite Hrows; left; reflexivity|].
    intros He. rewrite He in Hin. exact Hin. }
  assert (Ham : amounts rows <> []).
  { destruct (numeric_in rows r0 Hnum) as [x Hx];
      [rewrite Hrows; left; reflexivity|].
    rewrite Hrows. simpl. rewrite Hx. discriminate. }
  rewrite sum_of_values.
  2:{ destruct (group_keys rows); [congruence | discriminate]. }
  rewrite (sum_of_values _ Ham).
  rewrite Hflat. apply Hperm. apply amounts_partition; [|exact Hcov].
  apply sorted_nodup. apply group_keys_sorted.
Qed.

(** C3, amended.  On a stored frame whose amounts are numbers the summary
    is returned, and in it: the total is the sum of the amounts; the budget
    status has one entry per budget key, whose spend is the sum, as pandas
    forms it, of the amounts of the rows of that category, and 0 when the
    frame has no row of that category; the per-category totals have an
    entry for a category exactly when a row has it, holding that same sum.
    A row without a category belongs to none of them, so the per-category
    totals add up to the total when every row has a category; they do so
    exactly when sums are exact, as those of integers are. *)
Theorem summary_spend_by_category
        (self : ExpenseAnalyzer) (rows : list ExpenseRecord) :
  data self = Some rows ->
  forallb numeric rows = true ->
  exists s,
    generate_summary self = (inr s, self)
    /\ total_expenses s = sum_of (amounts rows)
    /\ map fst (budget_status s) = map fst (budgets self)
    /\ (forall cat st, In (cat, st) (budget_status s) ->
          spent st = spend cat rows
          /\ ((forall r, In r rows -> category r <> Text cat) ->
              spent st = of_int 0))
    /\ (forall cat v,
          In (cat, v) (category_breakdown s)
          <-> (exists r, In r rows /\ category r = Text cat)
              /\ v = group_values (amounts_of cat rows))
    /\ (exact_sums -> forallb categorised rows = true ->
        sum_of (map snd (category_breakdown s)) = total_expenses s).
Proof.
  intros Hd Hnum. exists (summary_of self rows).
  split; [apply generate_summary_loaded; assumption|].
  split; [apply series_sum_sum_of|].
  split; [apply budget_status_keys|]. split.
  - intros cat st Hin. simpl in Hin.
    apply budget_status_entry in Hin. destruct Hin as (bud & _ & ->). simpl.
    rewrite (series_get_spend _ _ Hnum).
    split; [reflexivity|].
    intros Habs. unfold spend. rewrite (amounts_of_absent _ _ Habs).
    reflexivity.
  - split; [intros cat v; apply groupby_sum_entries|].
    intros Hex Hcat. exact (breakdown_adds_up rows Hex Hnum Hcat).
Qed.

(** C4.  In the summary of a stored frame every budget entry carries the
    ceiling of its category and, as spend, what the rows of the frame
    spent in that category; its status is "Over budget" exactly when that
    spend is strictly above the ceiling and "Within budget" otherwise; a
    spend equal to the ceiling is within budget. *)
Theorem over_budget_iff_strictly_above
        (self : ExpenseAnalyzer) (rows : list ExpenseRecord) :
  gt_irreflexive ->
  data self = Some rows ->
  forallb numeric rows = true ->
  exists s,
    generate_summary self = (inr s, self)
    /\ map fst (budget_status s) = map fst (budgets self)
    /\ forall cat st, In (cat, st) (budget_status s) ->
         In (cat, budget st) (budgets self)
         /\ spent st = spend cat rows
         /\ (status st = "Over budget"
             <-> gt (spend cat rows) (budget st) = true)
         /\ (status st = "Within budget"
             <-> gt (spend cat rows) (budget st) = false)
         /\ (spend cat rows = budget st -> status st = "Within budget").
Proof.
  intros Hirr Hd Hnum. exists (summary_of self rows).
  split; [apply generate_summary_loaded; assumption|].
  split; [apply budget_status_keys|].
  intros cat st Hin. simpl in Hin.
  apply budget_status_entry in Hin. destruct Hin as (bud & Hin & ->). simpl.
  rewrite (series_get_spend _ _ Hnum).
  split; [exact Hin|]. split; [reflexivity|].
  destruct (gt (spend cat rows) bud) eqn:Hg.
  - split; [tauto|]. split; [split; discriminate|].
    intros Heq. rewrite Heq, Hirr in Hg. discriminate.
  - split; [split; discriminate|]. split; [tauto|]. reflexivity.
Qed.

(** C6.  Computing the summary leaves the analyzer (frame, anomalies,
    budgets, keyword table) as it was, and computing it again right away
    gives the same outcome. *)
Theorem generate_summary_pure (self : ExpenseAnalyzer) :
  snd (generate_summary self) = self
  /\ generate_summary (snd (generate_summary self)) = generate_summary self.
Proof.
  split; [|rewrite generate_summary_keeps_analyzer]; auto using
    generate_summary_keeps_analyzer.
Qed.

(** C10, amended.  On an analyzer whose detector has not succeeded yet,
    the summary of a stored frame whose amounts are numbers is returned
    without an exception and counts zero anomalies, whether the frame has
    rows or not.  When an amount of the frame is a text, the summary raises
    a [TypeError] instead and leaves the analyzer as it was. *)
Theorem summary_before_detection
        (self : ExpenseAnalyzer) (rows : list ExpenseRecord) :
  data self = Some rows -> anomalies self = None ->
  (forallb numeric rows = true ->
   exists s, generate_summary self = (inr s, self) /\ anomaly_count s = O)
  /\ (forallb numeric rows = false ->
      exists msg, generate_summary self = (inl (TypeError msg), self)).
Proof.
  intros Hd Ha. split; intros Hnum.
  - exists (summary_of self rows).
    split; [apply generate_summary_loaded; assumption|].
    simpl. rewrite Ha. reflexivity.
  - exists not_numeric_msg. apply (generate_summary_text _ rows); assumption.
Qed.

(** X7.  The per-category totals of the summary have one entry for each
    category that occurs in the frame and for no other, each category once,
    in increasing order of the category names. *)
Theorem category_breakdown_keys
        (self : ExpenseAnalyzer) (rows : list ExpenseRecord) :
  data self = Some rows ->
  forallb numeric rows = true ->
  exists s,
    generate_summary self = (inr s, self)
    /\ (forall cat, In cat (map fst (category_breakdown s))
                    <-> exists r, In r rows /\ category r = Text cat)
    /\ NoDup (map fst (category_breakdown s))
    /\ StronglySorted (fun a b => String.compare (fst a) (fst b) = Lt)
                      (category_breakdown s).
Proof.
  intros Hd Hnum. exists (summary_of self rows).
  split; [apply generate_summary_loaded; assumption|]. simpl.
  rewrite groupby_sum_keys.
  split; [intros cat; apply group_keys_in|].
  split; [apply sorted_nodup; apply group_keys_sorted|].
  unfold groupby_sum.
  pose proof (group_keys_sorted rows) as Hs.
  induction Hs as [|k keys Hs IH Hall]; simpl; constructor; [exact IH|].
  apply Forall_forall. intros e Hin. apply in_map_iff in Hin.
  destruct Hin as (k' & <- & Hin). simpl.
  rewrite Forall_forall in Hall. apply Hall. exact Hin.
Qed.

End SummarizerFacts.

(** ** The arithmetic of the worked session *)

Lemma wrap_add_l (a b : Z) :
  Sample.wrap (Sample.wrap a + b) = Sample.wrap (a + b).
Proof.
  unfold Sample.wrap.
  replace ((a + 2 ^ 63) mod 2 ^ 64 - 2 ^ 63 + b + 2 ^ 63)%Z
    with ((a + 2 ^ 63) mod 2 ^ 64 + b)%Z by ring.
  rewrite Zplus_mod_idemp_l.
  replace (a + 2 ^ 63 + b)%Z with (a + b + 2 ^ 63)%Z by ring.
  reflexivity.
Qed.

Lemma wrap_add_r (a b : Z) :
  Sample.wrap (a + Sample.wrap b) = Sample.wrap (a + b).
Proof.
  rewrite Z.add_comm, wrap_add_l, Z.add_comm. reflexivity.
Qed.

Lemma fold_add_app (l1 l2 : list Z) :
  fold_right Z.add 0%Z (l1 ++ l2)
  = (fold_right Z.add 0%Z l1 + fold_right Z.add 0%Z l2)%Z.
Proof.
  induction l1 as [|x l1 IH]; simpl; [reflexivity|]. rewrite IH. ring.
Qed.

Lemma fold_add_permutation (l l' : list Z) :
  Permutation l l' -> fold_right Z.add 0%Z l = fold_right Z.add 0%Z l'.
Proof.
  induction 1; simpl; try congruence; ring.
Qed.

(** In int64 arithmetic no number exceeds itself. *)
Lemma int64_gt_irreflexive : @gt_irreflexive Sample.int64.
Proof. intros x. apply Z.ltb_irrefl. Qed.

Lemma int64_gt_ordered : @gt_ordered Sample.int64.
Proof.
  split; intros x y z; simpl; rewrite ?Z.ltb_lt, ?Z.ltb_ge; lia.
Qed.

(** Sums of int64 numbers are exact, wrap-around included. *)
Lemma int64_exact_sums : @exact_sums Sample.int64.
Proof.
  split; [|split].
  - intros l l' Hp. simpl. unfold Sample.total.
    rewrite (fold_add_permutation _ _ Hp). reflexivity.
  - intros ls. simpl. unfold Sample.total at 1 3.
    induction ls as [|l ls IH]; simpl; [reflexivity|].
    rewrite fold_add_app. unfold Sample.total at 1.
    rewrite wrap_add_l.
    rewrite <- (wrap_add_r _ (fold_right Z.add 0%Z (map Sample.total ls))).
    rewrite IH. apply wrap_add_r.
  - reflexivity.
Qed.

(** The claim C3 fails on the code: a row whose category cell was empty in
    the file counts in the total and in no per-category total. *)
Lemma uncategorised_rows_in_no_total :
  data Sample.uncategorised = Some [Sample.snack; Sample.stray]
  /\ category Sample.stray = NaN
  /\ exists s,
       generate_summary Sample.uncategorised = (inr s, Sample.uncategorised)
       /\ total_expenses s = 6%Z
       /\ category_breakdown s = [("Food", 1%Z)]
       /\ sum_of (map snd (category_breakdown s)) = 1%Z.
Proof.
  split; [reflexivity|]. split; [reflexivity|].
  exists (summary_of Sample.uncategorised [Sample.snack; Sample.stray]).
  repeat split.
Qed.

Lemma summary_spend_by_category_witness :
  exists s,
    generate_summary Sample.categorized = (inr s, Sample.categorized)
    /\ total_expenses s = 418%Z
    /\ map fst (budget_status s)
       = ["Food"; "Travel"; "Utilities"; "Entertainment"]
    /\ (forall cat st, In (cat, st) (budget_status s) ->
          spent st
          = spend cat (recategorize default_category_keywords Sample.rows)
          /\ ((forall r,
                 In r (recategorize default_category_keywords Sample.rows) ->
                 category r <> Text cat) ->
              spent st = 0%Z))
    /\ (forall cat v,
          In (cat, v) (category_breakdown s)
          <-> (exists r,
                 In r (recategorize default_category_keywords Sample.rows)
                 /\ category r = Text cat)
              /\ v = Sample.total
                       (amounts_of cat
                          (recategorize default_category_keywords
                                        Sample.rows)))
    /\ sum_of (map snd (category_breakdown s)) = total_expenses s.
Proof.
  destruct (summary_spend_by_category
              Sample.categorized
              (recategorize default_category_keywords Sample.rows)
              eq_refl eq_refl)
    as (s & Hs & Htotal & Hkeys & Hspent & Hentries & Hsum).
  exists s. split; [exact Hs|]. split; [exact Htotal|].
  split; [exact Hkeys|]. split; [exact Hspent|]. split; [exact Hentries|].
  apply Hsum; [exact int64_exact_sums | reflexivity].
Defined.

Lemma over_budget_iff_strictly_above_witness :
  exists s,
    generate_summary Sample.entertained = (inr s, Sample.entertained)
    /\ map fst (budget_status s) = map fst (budgets Sample.entertained)
    /\ forall cat st, In (cat, st) (budget_status s) ->
         In (cat, budget st) (budgets Sample.entertained)
         /\ spent st
            = spend cat [Sample.concert 120; Sample.snack; Sample.concert 81]
         /\ (status st = "Over budget"
             <-> gt (spend cat [Sample.concert 120; Sample.snack;
                                Sample.concert 81])
                    (budget st) = true)
         /\ (status st = "Within budget"
             <-> gt (spend cat [Sample.concert 120; Sample.snack;
                                Sample.concert 81])
                    (budget st) = false)
         /\ (spend cat [Sample.concert 120; Sample.snack; Sample.concert 81]
             = budget st ->
             status st = "Within budget").
Proof.
  apply (over_budget_iff_strictly_above
           Sample.entertained
           [Sample.concert 120; Sample.snack; Sample.concert 81]
           int64_gt_irreflexive);
    reflexivity.
Defined.

(** Spending 200 on a budget of 200 is within budget, spending 201 is
    over, and two amounts count together. *)
Example sample_budget_boundary :
  let status_of rows :=
    match fst (generate_summary (set_data (Some rows) Sample.fresh)) with
    | inr s =>
        map (fun e => status (snd e))
            (filter (fun e => String.eqb (fst e) "Entertainment")
                    (budget_status s))
    | inl _ => []
    end in
  status_of [Sample.concert 200] = ["Within budget"]
  /\ status_of [Sample.concert 201] = ["Over budget"]
  /\ status_of [Sample.concert 120; Sample.snack; Sample.concert 81]
     = ["Over budget"]
  /\ status_of [Sample.snack] = ["Within budget"].
Proof. repeat split. Qed.

(** The claim C10 fails on the code: the loader accepts a file whose
    amounts are no numbers, and the summary of its frame, which has rows
    and which no detector has seen, raises. *)
Lemma text_amounts_summary_raises :
  load_data Sample.iso_dates (inr Sample.bad_amount_csv)
    = inr Sample.text_rows
  /\ data Sample.text_amounts = Some Sample.text_rows
  /\ Sample.text_rows <> []
  /\ anomalies Sample.text_amounts = None
  /\ generate_summary Sample.text_amounts
     = (inl (TypeError not_numeric_msg), Sample.text_amounts).
Proof.
  repeat split. discriminate.
Qed.

Lemma summary_before_detection_witness :
  exists s,
    generate_summary Sample.loaded = (inr s, Sample.loaded)
    /\ anomaly_count s = O.
Proof.
  destruct (summary_before_detection Sample.loaded Sample.rows
              eq_refl eq_refl) as (Hnumbers & _).
  apply Hnumbers. reflexivity.
Defined.

Lemma category_breakdown_keys_witness :
  exists s,
    generate_summary Sample.categorized = (inr s, Sample.categorized)
    /\ (forall cat, In cat (map fst (category_breakdown s))
                    <-> exists r,
                          In r (recategorize default_category_keywords
                                             Sample.rows)
                          /\ category r = Text cat)
    /\ NoDup (map fst (category_breakdown s))
    /\ StronglySorted (fun a b => String.compare (fst a) (fst b) = Lt)
                      (category_breakdown s).
Proof.
  apply (category_breakdown_keys Sample.categorized); reflexivity.
Defined.

(** ** Anomaly detector *)

Lemma map_combine_fst {A B C : Type} (f : A -> C)
      (a : list A) (b : list B) :
  List.length b = List.length a ->
  map (fun p => f (fst p)) (combine a b) = map f a.
Proof.
  revert b; induction a as [|x a IH]; intros [|y b]; simpl;
    try discriminate; [reflexivity|].
  intros H. rewrite IH by congruence. reflexivity.
Qed.

Lemma map_combine_snd {A B C : Type} (f : B -> C)
      (a : list A) (b : list B) :
  List.length b = List.length a ->
  map (fun p => f (snd p)) (combine a b) = map f b.
Proof.
  revert b; induction a as [|x a IH]; intros [|y b]; simpl;
    try discriminate; [reflexivity|].
  intros H. rewrite IH by congruence. reflexivity.
Qed.

Lemma dayofweek_range (t : Timestamp) : (0 <= dayofweek t <= 6)%Z.
Proof.
  unfold dayofweek.
  pose proof (Z.mod_pos_bound (days_from_civil t + 3) 7 eq_refl) as H.
  split; [apply H|]. apply Z.lt_succ_r. apply H.
Qed.

Section DetectorFacts.

Context {arith : Arith}.

Lemma preprocess_data_loaded self rows :
  data self = Some rows ->
  preprocess_data self
  = (inr (map feature_of (map with_features rows)),
     set_data (Some (map with_features rows)) self).
Proof.
  intros Hd. unfold preprocess_data, frame, bind, read, assign, ret.
  rewrite Hd. reflexivity.
Qed.

(** The features handed to the model are those of the dates. *)
Lemma features_of_frame (rows : list ExpenseRecord) :
  map feature_of (map with_features rows) = map features_by_date rows.
Proof. rewrite map_map. apply map_ext. intros r. reflexivity. Qed.

(** [detect_anomalies] on a stored frame, by the outcome of the two calls
    that can raise. *)
Lemma detect_anomalies_loaded self rows :
  data self = Some rows ->
  detect_anomalies self =
    let rows1 := map with_features rows in
    let self1 := set_data (Some rows1) self in
    match model self (map features_by_date rows) with
    | inl e => (inl e, self1)
    | inr labels =>
        match with_anomaly_column rows1 labels with
        | inl e => (inl e, self1)
        | inr rows2 =>
            (inr tt,
             set_anomalies (Some (filter is_outlier rows2))
                           (set_data (Some rows2) self1))
        end
    end.
Proof.
  intros Hd. unfold detect_anomalies.
  rewrite (bind_returns _ _ _ _ _ (require_data_loaded _ _ Hd)).
  rewrite (bind_returns _ _ _ _ _ (preprocess_data_loaded _ _ Hd)).
  rewrite features_of_frame.
  cbv zeta. unfold bind at 1. unfold read at 1.
  change (model (set_data (Some (map with_features rows)) self))
    with (model self).
  unfold bind at 1. unfold call at 1.
  destruct (model self (map features_by_date rows))
    as [e|labels]; [reflexivity|].
  rewrite (bind_returns frame _
             (set_data (Some (map with_features rows)) self)
             (set_data (Some (map with_features rows)) self)
             (map with_features rows))
    by reflexivity.
  unfold bind at 1. unfold call at 1.
  destruct (with_anomaly_column (map with_features rows) labels)
    as [e|rows2]; reflexivity.
Qed.

Lemma detect_anomalies_not_loaded self :
  data self = None ->
  detect_anomalies self = (inl (ValueError no_data_msg), self).
Proof.
  intros Hd. unfold detect_anomalies.
  apply bind_raises. apply require_data_not_loaded. exact Hd.
Qed.

Lemma with_anomaly_column_ok rows labels rows' :
  with_anomaly_column rows labels = inr rows' ->
  List.length labels = List.length rows
  /\ rows' = map (fun p => set_anomaly (snd p) (fst p)) (combine rows labels).
Proof.
  unfold with_anomaly_column.
  destruct (Nat.eqb_spec (List.length labels) (List.length rows)) as [H|H];
    [|discriminate].
  intros E. inversion E. auto.
Qed.

Lemma outliers_count (labels : list Z) (rows : list ExpenseRecord) :
  List.length labels = List.length rows ->
  List.length
    (filter is_outlier
       (map (fun p => set_anomaly (snd p) (fst p)) (combine rows labels)))
  = count_occ Z.eq_dec labels (-1)%Z.
Proof.
  revert labels; induction rows as [|r rows IH]; intros [|a labels]; simpl;
    try discriminate; [reflexivity|].
  intros H. unfold is_outlier at 1. simpl.
  destruct (Z.eq_dec a (-1)) as [->|Hne]; simpl.
  - rewrite IH by congruence. reflexivity.
  - destruct (Z.eqb_spec a (-1)); [contradiction|].
    apply IH. congruence.
Qed.

(** *** The anomalies kept and the rows flagged *)

Lemma flagged_map (f : ExpenseRecord -> ExpenseRecord) rows :
  (forall r, is_outlier (f r) = is_outlier r) ->
  flagged (map f rows) = flagged rows.
Proof.
  intros Hf. unfold flagged.
  induction rows as [|r rows IH]; simpl; [reflexivity|].
  rewrite Hf. destruct (is_outlier r); simpl; congruence.
Qed.

Lemma detect_anomalies_in_step self self' :
  detect_anomalies self = (inr tt, self') -> in_step self'.
Proof.
  destruct (data self) as [rows|] eqn:Hd.
  - rewrite (detect_anomalies_loaded _ _ Hd). cbv zeta.
    destruct (model self _) as [e|labels]; [discriminate|].
    destruct (with_anomaly_column _ labels) as [e|rows2]; [discriminate|].
    intros H. inversion H; subst.
    exists rows2, (filter is_outlier rows2). auto.
  - rewrite (detect_anomalies_not_loaded _ Hd). discriminate.
Qed.

Lemma detect_anomalies_keeps_step self :
  in_step self -> in_step (snd (detect_anomalies self)).
Proof.
  intros (rows & found & Hd & Ha & Hlen).
  rewrite (detect_anomalies_loaded _ _ Hd). cbv zeta.
  assert (Hkeep : in_step (set_data (Some (map with_features rows)) self)).
  { exists (map with_features rows), found. simpl.
    repeat split; [exact Ha|].
    rewrite flagged_map; [exact Hlen | reflexivity]. }
  destruct (model self _) as [e|labels]; [exact Hkeep|].
  destruct (with_anomaly_column _ labels) as [e|rows2]; [exact Hkeep|].
  exists rows2, (filter is_outlier rows2). auto.
Qed.

Lemma auto_categorize_keeps_step self :
  in_step self -> in_step (snd (auto_categorize self)).
Proof.
  intros (rows & found & Hd & Ha & Hlen).
  destruct (forallb described rows) eqn:Hall.
  - rewrite (auto_categorize_loaded _ _ Hd Hall). simpl.
    eexists _, found. simpl. repeat split; [exact Ha|].
    unfold recategorize. rewrite flagged_map; [exact Hlen | reflexivity].
  - rewrite (auto_categorize_undescribed _ _ Hd Hall). simpl.
    exists rows, found. auto.
Qed.

(** As long as no other file is loaded, the anomalies kept stay as many
    as the rows flagged, and that is the count of every summary. *)
Lemma anomaly_count_without_reload
      (self after : ExpenseAnalyzer) (calls : list Call) (s : Summary) :
  detect_anomalies self = (inr tt, after) ->
  Forall (fun c => forall rows, c <> Load rows) calls ->
  fst (generate_summary (perform calls after)) = inr s ->
  exists rows,
    data (perform calls after) = Some rows
    /\ anomaly_count s = flagged rows.
Proof.
  intros Hdet Hcalls.
  assert (Hstep : in_step (perform calls after)).
  { apply detect_anomalies_in_step in Hdet.
    revert after Hdet. induction Hcalls as [|c calls Hc _ IH];
      intros after Hin; [exact Hin|].
    simpl. apply IH. destruct c; simpl.
    - exfalso. exact (Hc rows eq_refl).
    - apply auto_categorize_keeps_step; exact Hin.
    - apply detect_anomalies_keeps_step; exact Hin.
    - rewrite generate_summary_keeps_analyzer. exact Hin. }
  destruct Hstep as (rows & found & Hd & Ha & Hlen).
  intros Hs. exists rows. split; [exact Hd|].
  destruct (forallb numeric rows) eqn:Hnum.
  - rewrite (generate_summary_loaded _ _ Hd Hnum) in Hs.
    inversion Hs; subst s. simpl. rewrite Ha. exact Hlen.
  - rewrite (generate_summary_text _ _ Hd Hnum) in Hs. discriminate.
Qed.

(** *** Calls before loading and on an empty frame *)

Lemma detect_anomalies_empty self :
  data self = Some [] ->
  detect_anomalies self =
    match model self [] with
    | inl e => (inl e, self)
    | inr [] => (inr tt, set_anomalies (Some []) self)
    | inr (_ :: _) =>
        (inl (ValueError "Length of values does not match length of index"),
         self)
    end.
Proof.
  intros Hd. rewrite (detect_anomalies_loaded _ _ Hd). simpl.
  assert (Hs : set_data (Some []) self = self).
  { destruct self as [m d a b k]; simpl in Hd; subst d; reflexivity. }
  rewrite Hs.
  destruct (model self []) as [e|[|l labels]]; simpl; rewrite ?Hs;
    reflexivity.
Qed.

(** C8, amended.  Before a frame is stored, anomaly detection and
    summarization both raise the no-data [ValueError] and leave the analyzer
    unchanged.  On a stored frame with no rows nothing checks for emptiness:
    the summary is returned, with total 0, no average, no per-category total
    and spend 0 in every budget entry; detection passes the empty feature
    list to the outlier model and raises only what the model raises, or the
    length error of the column assignment. *)
Theorem not_loaded_raises_empty_frame_does_not
        (unloaded empty : ExpenseAnalyzer) :
  data unloaded = None ->
  data empty = Some [] ->
  detect_anomalies unloaded = (inl (ValueError no_data_msg), unloaded)
  /\ generate_summary unloaded = (inl (ValueError no_data_msg), unloaded)
  /\ (exists s,
        generate_summary empty = (inr s, empty)
        /\ total_expenses s = of_int 0
        /\ avg_expense s = None
        /\ category_breakdown s = []
        /\ forall cat st, In (cat, st) (budget_status s) ->
                          spent st = of_int 0)
  /\ detect_anomalies empty =
       match model empty [] with
       | inl e => (inl e, empty)
       | inr [] => (inr tt, set_anomalies (Some []) empty)
       | inr (_ :: _) =>
           (inl (ValueError
                   "Length of values does not match length of index"),
            empty)
       end.
Proof.
  intros Hn He.
  split; [apply detect_anomalies_not_loaded; exact Hn|].
  split; [apply generate_summary_not_loaded; exact Hn|].
  split; [|apply detect_anomalies_empty; exact He].
  exists (summary_of empty []).
  split; [apply generate_summary_loaded; [exact He | reflexivity]|].
  repeat (split; [reflexivity|]).
  intros cat st Hin. simpl in Hin.
  apply budget_status_entry in Hin. destruct Hin as (bud & _ & ->).
  reflexivity.
Qed.

(** *** What a call leaves behind *)

(** What a successful detection leaves in the analyzer. *)
Lemma detect_anomalies_frame (self self' : ExpenseAnalyzer) :
  detect_anomalies self = (inr tt, self') ->
  exists rows rows' labels,
    data self = Some rows
    /\ model self (map features_by_date rows) = inr labels
    /\ List.length labels = List.length rows
    /\ data self' = Some rows'
    /\ map date rows' = map date rows
    /\ map category rows' = map category rows
    /\ map amount rows' = map amount rows
    /\ map description rows' = map description rows
    /\ map anomaly rows' = map Some labels
    /\ Forall (fun r =>
                 match date r with
                 | Stamp t =>
                     day_of_week r = Some (Some (dayofweek t))
                     /\ (0 <= dayofweek t <= 6)%Z
                     /\ month r = Some (Some (Z.of_nat (ts_month t)))
                 | NaT => day_of_week r = Some None /\ month r = Some None
                 end)
              rows'
    /\ anomalies self' = Some (filter is_outlier rows')
    /\ List.length (filter is_outlier rows')
       = count_occ Z.eq_dec labels (-1)%Z
    /\ budgets self' = budgets self
    /\ category_keywords self' = category_keywords self.
Proof.
  destruct (data self) as [rows|] eqn:Hd.
  2:{ rewrite (detect_anomalies_not_loaded _ Hd). discriminate. }
  rewrite (detect_anomalies_loaded _ _ Hd). cbv zeta.
  destruct (model self (map features_by_date rows)) as [e|labels] eqn:Hm;
    [discriminate|].
  destruct (with_anomaly_column (map with_features rows) labels)
    as [e|rows'] eqn:Hw; [discriminate|].
  intros H. inversion H; subst self'; clear H.
  apply with_anomaly_column_ok in Hw. destruct Hw as [Hlen ->].
  rewrite length_map in Hlen.
  assert (Hlen' : List.length labels
                  = List.length (map with_features rows))
    by (rewrite length_map; exact Hlen).
  exists rows, (map (fun p => set_anomaly (snd p) (fst p))
                    (combine (map with_features rows) labels)), labels.
  split; [reflexivity|]. split; [exact Hm|]. split; [exact Hlen|].
  split; [reflexivity|].
  rewrite !map_map. simpl.
  rewrite (map_combine_fst (fun r => date r) _ _ Hlen').
  rewrite (map_combine_fst (fun r => category r) _ _ Hlen').
  rewrite (map_combine_fst (fun r => amount r) _ _ Hlen').
  rewrite (map_combine_fst (fun r => description r) _ _ Hlen').
  rewrite (map_combine_snd (fun a => Some a) _ _ Hlen').
  rewrite !map_map. simpl.
  repeat (split; [reflexivity|]).
  split.
  { apply Forall_forall. intros r' Hin. apply in_map_iff in Hin.
    destruct Hin as ([r a] & <- & Hin). simpl.
    apply in_combine_l in Hin. apply in_map_iff in Hin.
    destruct Hin as (r0 & <- & _). simpl.
    destruct (date r0) as [t|]; simpl; [|auto].
    split; [reflexivity|]. split; [apply dayofweek_range | reflexivity]. }
  split; [reflexivity|].
  split; [apply outliers_count; exact Hlen'|]. auto.
Qed.

(** X4.  After a successful detection the frame has its rows in the same
    order with the same date, category, amount and description; every row
    with a date carries the weekday of its date (0 to 6) and the month of
    its date, a row without date carries NaN for both; every row has as
    anomaly flag the label that the model returned at its position; the
    anomalies kept by the analyzer are exactly the rows labelled -1, in
    frame order, as many as the model returned -1; budgets and keyword table
    are untouched. *)
Theorem detect_anomalies_postcondition (self self' : ExpenseAnalyzer) :
  detect_anomalies self = (inr tt, self') ->
  exists rows rows' labels,
    data self = Some rows
    /\ model self (map features_by_date rows) = inr labels
    /\ List.length labels = List.length rows
    /\ data self' = Some rows'
    /\ map date rows' = map date rows
    /\ map category rows' = map category rows
    /\ map amount rows' = map amount rows
    /\ map description rows' = map description rows
    /\ map anomaly rows' = map Some labels
    /\ Forall (fun r =>
                 match date r with
                 | Stamp t =>
                     day_of_week r = Some (Some (dayofweek t))
                     /\ (0 <= dayofweek t <= 6)%Z
                     /\ month r = Some (Some (Z.of_nat (ts_month t)))
                 | NaT => day_of_week r = Some None /\ month r = Some None
                 end)
              rows'
    /\ anomalies self' = Some (filter is_outlier rows')
    /\ List.length (filter is_outlier rows')
       = count_occ Z.eq_dec labels (-1)%Z
    /\ budgets self' = budgets self
    /\ category_keywords self' = category_keywords self.
Proof. exact (detect_anomalies_frame self self'). Qed.

(** X5.  A detection that raises never touches the anomalies found
    earlier, the budgets or the keyword table.  Without a frame it raises
    the no-data error and changes nothing; with a frame it leaves the rows
    in order, each with the date, category, amount, description and
    anomaly flag it had. *)
Theorem detect_anomalies_failure
        (self self' : ExpenseAnalyzer) (e : exn) :
  detect_anomalies self = (inl e, self') ->
  anomalies self' = anomalies self
  /\ budgets self' = budgets self
  /\ category_keywords self' = category_keywords self
  /\ (data self = None -> e = ValueError no_data_msg /\ self' = self)
  /\ (forall rows, data self = Some rows ->
        exists rows',
          data self' = Some rows'
          /\ map date rows' = map date rows
          /\ map category rows' = map category rows
          /\ map amount rows' = map amount rows
          /\ map description rows' = map description rows
          /\ map anomaly rows' = map anomaly rows).
Proof.
  assert (Hkept : forall rows : list ExpenseRecord,
            map date (map with_features rows) = map date rows
            /\ map category (map with_features rows) = map category rows
            /\ map amount (map with_features rows) = map amount rows
            /\ map description (map with_features rows)
               = map description rows
            /\ map anomaly (map with_features rows) = map anomaly rows).
  { intros rows. rewrite !map_map. simpl. auto. }
  destruct (data self) as [rows|] eqn:Hd.
  - rewrite (detect_anomalies_loaded _ _ Hd). cbv zeta.
    destruct (model self _) as [e'|labels].
    + intros H; inversion H; subst. simpl.
      repeat (split; [reflexivity|]).
      split; [discriminate|]. intros rows' Hr. inversion Hr; subst rows'.
      exists (map with_features rows). split; [reflexivity | apply Hkept].
    + destruct (with_anomaly_column _ labels) as [e'|rows']; [|discriminate].
      intros H; inversion H; subst. simpl.
      repeat (split; [reflexivity|]).
      split; [discriminate|]. intros rows' Hr. inversion Hr; subst rows'.
      exists (map with_features rows). split; [reflexivity | apply Hkept].
  - rewrite (detect_anomalies_not_loaded _ Hd).
    intros H; inversion H; subst.
    repeat (split; [reflexivity|]).
    split; [auto | discriminate].
Qed.

Lemma redetect_rows (rows : list ExpenseRecord) (labels : list Z) :
  List.length labels = List.length rows ->
  map (fun p => set_anomaly (snd p) (fst p))
      (combine
         (map with_features
              (map (fun p => set_anomaly (snd p) (fst p))
                   (combine (map with_features rows) labels)))
         labels)
  = map (fun p => set_anomaly (snd p) (fst p))
        (combine (map with_features rows) labels).
Proof.
  revert labels; induction rows as [|r rows IH]; intros [|a labels]; simpl;
    try discriminate; [reflexivity|].
  intros H. rewrite IH by congruence. reflexivity.
Qed.

Lemma refeature_rows (rows : list ExpenseRecord) (labels : list Z) :
  List.length labels = List.length rows ->
  map features_by_date
      (map (fun p => set_anomaly (snd p) (fst p))
           (combine (map with_features rows) labels))
  = map features_by_date rows.
Proof.
  revert labels; induction rows as [|r rows IH]; intros [|a labels]; simpl;
    try discriminate; [reflexivity|].
  intros H. rewrite IH by congruence. reflexivity.
Qed.

(** X6.  Detection reads only amounts and dates: run again on the analyzer
    that a successful detection left, it succeeds and leaves the frame, the
    flags and the anomalies exactly as they are. *)
Theorem detect_anomalies_again (self after : ExpenseAnalyzer) :
  detect_anomalies self = (inr tt, after) ->
  detect_anomalies after = (inr tt, after).
Proof.
  destruct (data self) as [rows|] eqn:Hd.
  2:{ rewrite (detect_anomalies_not_loaded _ Hd). discriminate. }
  rewrite (detect_anomalies_loaded _ _ Hd). cbv zeta.
  destruct (model self (map features_by_date rows))
    as [e|labels] eqn:Hm; [discriminate|].
  destruct (with_anomaly_column (map with_features rows) labels)
    as [e|rows'] eqn:Hw; [discriminate|].
  intros H. inversion H; subst after; clear H.
  pose proof (with_anomaly_column_ok _ _ _ Hw) as [Hlen ->].
  rewrite length_map in Hlen.
  erewrite detect_anomalies_loaded; [|reflexivity]. cbv zeta. simpl model.
  rewrite (refeature_rows rows labels Hlen), Hm.
  unfold with_anomaly_column. rewrite !length_map, length_combine.
  rewrite !length_map, Hlen, Nat.min_id, Nat.eqb_refl.
  rewrite (redetect_rows rows labels Hlen). reflexivity.
Qed.

End DetectorFacts.

(** C5.  The claim is right and the code breaks it: on an analyzer that
    has looked for anomalies in one file and then loaded another, the
    summary of the new frame, none of whose rows is flagged, still counts
    the anomaly kept from the first file. *)
Theorem anomaly_count_stale_after_reload :
  detect_anomalies Sample.loaded
    = (inr tt, perform [Detect] Sample.loaded)
  /\ Sample.reloaded
     = after_call (Load Sample.second_file) (perform [Detect] Sample.loaded)
  /\ data Sample.reloaded = Some Sample.second_file
  /\ flagged Sample.second_file = O
  /\ exists s,
       generate_summary Sample.reloaded = (inr s, Sample.reloaded)
       /\ anomaly_count s = 1%nat.
Proof.
  repeat (split; [reflexivity|]).
  exists (summary_of Sample.reloaded Sample.second_file).
  split; reflexivity.
Qed.

(** The claim C8 fails on the code: the summary of a stored frame with no
    rows is returned, no exception is raised. *)
Lemma empty_frame_summary_is_returned :
  data Sample.loaded_empty = Some []
  /\ ~ exists e, fst (generate_summary Sample.loaded_empty) = inl e.
Proof.
  split; [reflexivity|]. intros [e He]. discriminate He.
Qed.

Lemma not_loaded_raises_empty_frame_does_not_witness :
  detect_anomalies Sample.fresh
    = (inl (ValueError no_data_msg), Sample.fresh)
  /\ generate_summary Sample.fresh
     = (inl (ValueError no_data_msg), Sample.fresh)
  /\ (exists s,
        generate_summary Sample.loaded_empty = (inr s, Sample.loaded_empty)
        /\ total_expenses s = of_int 0
        /\ avg_expense s = None
        /\ category_breakdown s = []
        /\ forall cat st, In (cat, st) (budget_status s) ->
                          spent st = of_int 0)
  /\ detect_anomalies Sample.loaded_empty =
       match model Sample.loaded_empty [] with
       | inl e => (inl e, Sample.loaded_empty)
       | inr [] => (inr tt, set_anomalies (Some []) Sample.loaded_empty)
       | inr (_ :: _) =>
           (inl (ValueError
                   "Length of values does not match length of index"),
            Sample.loaded_empty)
       end.
Proof.
  apply (not_loaded_raises_empty_frame_does_not
           Sample.fresh Sample.loaded_empty); reflexivity.
Defined.

Lemma detect_anomalies_postcondition_witness :
  exists rows rows' labels,
    data Sample.undated = Some rows
    /\ model Sample.undated (map features_by_date rows) = inr labels
    /\ List.length labels = List.length rows
    /\ data (snd (detect_anomalies Sample.undated)) = Some rows'
    /\ map date rows' = map date rows
    /\ map category rows' = map category rows
    /\ map amount rows' = map amount rows
    /\ map description rows' = map description rows
    /\ map anomaly rows' = map Some labels
    /\ Forall (fun r =>
                 match date r with
                 | Stamp t =>
                     day_of_week r = Some (Some (dayofweek t))
                     /\ (0 <= dayofweek t <= 6)%Z
                     /\ month r = Some (Some (Z.of_nat (ts_month t)))
                 | NaT => day_of_week r = Some None /\ month r = Some None
                 end)
              rows'
    /\ anomalies (snd (detect_anomalies Sample.undated))
       = Some (filter is_outlier rows')
    /\ List.length (filter is_outlier rows')
       = count_occ Z.eq_dec labels (-1)%Z
    /\ budgets (snd (detect_anomalies Sample.undated))
       = budgets Sample.undated
    /\ category_keywords (snd (detect_anomalies Sample.undated))
       = category_keywords Sample.undated.
Proof.
  apply (detect_anomalies_postcondition Sample.undated
           (snd (detect_anomalies Sample.undated))).
  reflexivity.
Defined.

Lemma detect_anomalies_failure_witness :
  anomalies (snd (detect_anomalies Sample.text_amounts))
    = anomalies Sample.text_amounts
  /\ budgets (snd (detect_anomalies Sample.text_amounts))
     = budgets Sample.text_amounts
  /\ category_keywords (snd (detect_anomalies Sample.text_amounts))
     = category_keywords Sample.text_amounts
  /\ (data Sample.text_amounts = None ->
      ModelError "could not convert string to float" = ValueError no_data_msg
      /\ snd (detect_anomalies Sample.text_amounts) = Sample.text_amounts)
  /\ (forall rows, data Sample.text_amounts = Some rows ->
        exists rows',
          data (snd (detect_anomalies Sample.text_amounts)) = Some rows'
          /\ map date rows' = map date rows
          /\ map category rows' = map category rows
          /\ map amount rows' = map amount rows
          /\ map description rows' = map description rows
          /\ map anomaly rows' = map anomaly rows).
Proof.
  apply (detect_anomalies_failure Sample.text_amounts
           (snd (detect_anomalies Sample.text_amounts))
           (ModelError "could not convert string to float")).
  reflexivity.
Defined.

Lemma detect_anomalies_again_witness :
  detect_anomalies (snd (detect_anomalies Sample.loaded))
  = (inr tt, snd (detect_anomalies Sample.loaded)).
Proof.
  apply (detect_anomalies_again Sample.loaded
           (snd (detect_anomalies Sample.loaded))).
  reflexivity.
Defined.

(** In the frame of the example the flight is the one anomaly; the first
    of January 2025 was a Wednesday, and a row without date has no
    weekday. *)
Example sample_detection :
  option_map (map anomaly) (data (snd (detect_anomalies Sample.loaded)))
    = Some [Some 1%Z; Some (-1)%Z; Some 1%Z; Some 1%Z]
  /\ option_map (map day_of_week)
                (data (snd (detect_anomalies Sample.undated)))
     = Some [Some (Some 2%Z); Some None].
Proof. split; reflexivity. Qed.

(** ** Loader *)

Lemma all_false_exists {A : Type} (f : A -> bool) (l : list A) :
  all f l = false <-> exists x, In x l /\ f x = false.
Proof.
  unfold all. induction l as [|y l IH]; simpl.
  - split; [discriminate | intros (x & [] & _)].
  - rewrite andb_false_iff, IH. split.
    + intros [Hy | (x & Hx & Hf)]; eauto.
    + intros (x & [<-|Hx] & Hf); eauto.
Qed.

Lemma mem_false (x : string) (l : list string) :
  mem x l = false <-> ~ In x l.
Proof.
  rewrite <- mem_in. destruct (mem x l); split; congruence.
Qed.

Section LoaderFacts.

Context {arith : Arith}.

(** [pd.to_datetime] on a column; it returns as many values as the column
    has cells. *)
Variable to_datetime : list cell -> result (list datetime).

Hypothesis to_datetime_length :
  forall cells ds,
    to_datetime cells = inr ds -> List.length ds = List.length cells.

Lemma header_complete (df : RawFrame) :
  all (fun col => mem col (columns df)) required_columns = true
  <-> forall col, In col required_columns -> In col (columns df).
Proof.
  unfold all. rewrite forallb_forall. split; intros H col Hin.
  - apply mem_in. apply H. exact Hin.
  - apply mem_in. apply H. exact Hin.
Qed.

Lemma zip_rows_columns ds cs ams descs :
  List.length cs = List.length ds ->
  List.length ams = List.length ds ->
  List.length descs = List.length ds ->
  map date (zip_rows ds cs ams descs) = ds
  /\ map category (zip_rows ds cs ams descs) = cs
  /\ map amount (zip_rows ds cs ams descs) = ams
  /\ map description (zip_rows ds cs ams descs) = descs
  /\ Forall (fun r => day_of_week r = None /\ month r = None
                      /\ anomaly r = None)
            (zip_rows ds cs ams descs).
Proof.
  revert cs ams descs.
  induction ds as [|d ds IH]; intros [|c cs] [|a ams] [|x descs]; simpl;
    try discriminate; intros H1 H2 H3.
  - repeat split; constructor.
  - destruct (IH cs ams descs) as (E1 & E2 & E3 & E4 & E5); try congruence.
    rewrite E1, E2, E3, E4. repeat split. constructor; auto.
Qed.

(** C7, amended.  The loader fails in three cases and in no other: when
    [read_csv] raises, with that exception; when the header lacks one of
    the four required columns, with the [ValueError] about the columns;
    when [pd.to_datetime] raises on the date column, with that exception.
    Otherwise it stores the rows of the file in file order, their dates as
    [pd.to_datetime] returned them, their category, amount and description
    cells as [read_csv] gave them, and no derived column.  No amount is
    looked at: cells that are no numbers are stored as the texts they
    are. *)
Theorem load_data_fails_on_dates_only (read : result RawFrame) :
  (forall e, read = inl e -> load_data to_datetime read = inl e)
  /\ (forall df,
        read = inr df ->
        (exists col, In col required_columns /\ ~ In col (columns df)) ->
        load_data to_datetime read = inl (ValueError schema_msg))
  /\ (forall df e,
        read = inr df ->
        (forall col, In col required_columns -> In col (columns df)) ->
        to_datetime (date_cells df) = inl e ->
        load_data to_datetime read = inl e)
  /\ (forall df dates,
        read = inr df ->
        (forall col, In col required_columns -> In col (columns df)) ->
        to_datetime (date_cells df) = inr dates ->
        aligned df ->
        exists rows,
          load_data to_datetime read = inr rows
          /\ map date rows = dates
          /\ map category rows = category_cells df
          /\ map amount rows = amount_cells df
          /\ map description rows = description_cells df
          /\ Forall (fun r => day_of_week r = None /\ month r = None
                              /\ anomaly r = None) rows).
Proof.
  split; [intros e ->; reflexivity|]. split; [|split].
  - intros df -> (col & Hin & Hnot). unfold load_data.
    assert (H : all (fun c => mem c (columns df)) required_columns = false).
    { apply all_false_exists. exists col. split; [exact Hin|].
      apply mem_false. exact Hnot. }
    rewrite H. reflexivity.
  - intros df e -> Hcols Hdate. unfold load_data.
    rewrite (proj2 (header_complete df) Hcols). simpl. rewrite Hdate.
    reflexivity.
  - intros df dates -> Hcols Hdate (H1 & H2 & H3). unfold load_data.
    rewrite (proj2 (header_complete df) Hcols). simpl. rewrite Hdate.
    pose proof (to_datetime_length _ _ Hdate) as Hlen.
    eexists. split; [reflexivity|].
    apply zip_rows_columns; congruence.
Qed.

(** X3.  A file that lacks one of the columns date, category, amount,
    description is refused with the column error, whatever its cells hold:
    the header is checked before any date is parsed. *)
Theorem load_data_missing_column (csv : RawFrame) (col : string) :
  In col required_columns ->
  mem col (columns csv) = false ->
  load_data to_datetime (inr csv) = inl (ValueError schema_msg).
Proof.
  intros Hin Hmem. unfold load_data.
  assert (H : all (fun c => mem c (columns csv)) required_columns = false).
  { apply all_false_exists. eauto. }
  rewrite H. reflexivity.
Qed.

End LoaderFacts.

(** The stand-in for [pd.to_datetime] returns one value per cell. *)
Lemma iso_dates_length (cells : list cell) (ds : list datetime) :
  Sample.iso_dates cells = inr ds -> List.length ds = List.length cells.
Proof.
  revert ds; induction cells as [|[s|] cells IH]; intros ds; simpl.
  - intros H; inversion H; reflexivity.
  - destruct (Sample.iso_date s); [|discriminate].
    destruct (Sample.iso_dates cells) as [e|ds']; [discriminate|].
    intros H; inversion H; subst. simpl. rewrite (IH ds' eq_refl).
    reflexivity.
  - destruct (Sample.iso_dates cells) as [e|ds']; [discriminate|].
    intros H; inversion H; subst. simpl. rewrite (IH ds' eq_refl).
    reflexivity.
Qed.

(** The claim C7 fails on the code: a file with an amount cell that is no
    number is loaded, the cell kept as the text it is. *)
Lemma unparsed_amount_is_loaded :
  amount_cells Sample.bad_amount_csv = [AmountText "4.50"; AmountText "abc"]
  /\ exists rows,
       load_data Sample.iso_dates (inr Sample.bad_amount_csv) = inr rows
       /\ map amount rows = [AmountText "4.50"; AmountText "abc"]
       /\ map date rows = [Stamp (mkTimestamp 2025 1 1);
                           Stamp (mkTimestamp 2025 1 2)].
Proof.
  split; [reflexivity|]. exists Sample.text_rows. repeat split.
Qed.

Lemma load_data_fails_on_dates_only_witness :
  exists rows,
    load_data Sample.iso_dates (inr Sample.expenses_csv) = inr rows
    /\ map date rows
       = [Stamp (mkTimestamp 2025 1 1); Stamp (mkTimestamp 2025 1 2);
          Stamp (mkTimestamp 2025 1 3); Stamp (mkTimestamp 2025 1 4)]
    /\ map category rows = category_cells Sample.expenses_csv
    /\ map amount rows = amount_cells Sample.expenses_csv
    /\ map description rows = description_cells Sample.expenses_csv
    /\ Forall (fun r => day_of_week r = None /\ month r = None
                        /\ anomaly r = None) rows.
Proof.
  destruct (load_data_fails_on_dates_only
              Sample.iso_dates iso_dates_length (inr Sample.expenses_csv))
    as (_ & _ & _ & Hloaded).
  apply (Hloaded Sample.expenses_csv).
  - reflexivity.
  - simpl. intros col [<-|[<-|[<-|[<-|[]]]]]; auto.
  - reflexivity.
  - repeat split.
Defined.

Lemma load_data_missing_column_witness :
  load_data Sample.iso_dates (inr Sample.no_amount_csv)
  = inl (ValueError schema_msg).
Proof.
  apply (load_data_missing_column Sample.iso_dates
           Sample.no_amount_csv "amount").
  - simpl. auto.
  - reflexivity.
Defined.

(** The file of the example is loaded as the four records; a date that is
    no date is refused; with the stand-in for [pd.to_datetime], as with
    pandas, an empty date cell is loaded as a row without date. *)
Example sample_files :
  load_data Sample.iso_dates (inr Sample.expenses_csv) = inr Sample.rows
  /\ load_data Sample.iso_dates (inr Sample.bad_date_csv)
     = inl (DateParseError "soon")
  /\ load_data Sample.iso_dates
               (inr (mkRaw ["date"; "category"; "amount"; "description"]
                           [Text "2025-01-01"; NaN]
                           [Text "Uncategorized"; Text "Uncategorized"]
                           [Amount 5%Z; Amount 30%Z]
                           [Text "Coffee shop"; Text "Dinner"]))
     = inr [Sample.coffee; Sample.dinner].
Proof. repeat split. Qed.

(** ** Query dispatcher *)

Lemma filter_of_map {A B : Type} (f : A -> B) (p : B -> bool) (l : list A) :
  filter p (map f l) = map f (filter (fun x => p (f x)) l).
Proof.
  induction l as [|x l IH]; simpl; [reflexivity|].
  destruct (p (f x)); simpl; rewrite IH; reflexivity.
Qed.

Lemma filter_twice {A : Type} (p q : A -> bool) (l : list A) :
  filter p (filter q l) = filter (fun x => q x && p x) l.
Proof.
  induction l as [|x l IH]; simpl; [reflexivity|].
  destruct (q x); simpl; [destruct (p x)|]; rewrite IH; reflexivity.
Qed.

Lemma next_any {A : Type} (f : A -> bool) (l : list A) (x : A) :
  next f l = Some x -> any f l = true.
Proof.
  unfold next, any. intros H. apply find_some in H.
  apply existsb_exists. exists x. exact H.
Qed.

Lemma any_next {A : Type} (f : A -> bool) (l : list A) :
  any f l = true -> exists x, next f l = Some x.
Proof.
  unfold any, next. induction l as [|y l IH]; simpl; [discriminate|].
  destruct (f y); [eauto | exact IH].
Qed.

Lemma any_false_next {A : Type} (f : A -> bool) (l : list A) :
  any f l = false -> next f l = None.
Proof.
  unfold any, next. induction l as [|y l IH]; simpl; [reflexivity|].
  destruct (f y); [discriminate | exact IH].
Qed.

Lemma append_assoc (a b c : string) :
  ((a ++ b) ++ c)%string = (a ++ b ++ c)%string.
Proof.
  induction a as [|x a IH]; simpl; [reflexivity|]. rewrite IH. reflexivity.
Qed.

Lemma contains_inner (k pre post s : string) :
  contains (pre ++ k ++ post)%string s = true -> contains k s = true.
Proof.
  rewrite !contains_substring. intros (a & b & ->).
  exists (a ++ pre)%string, (post ++ b)%string.
  rewrite !append_assoc. reflexivity.
Qed.

Lemma capitalize_categories (cat : string) :
  In cat categories ->
  In (capitalize cat) ["Food"; "Travel"; "Utilities"; "Entertainment"].
Proof.
  simpl. intros [<-|[<-|[<-|[<-|[]]]]]; simpl; auto.
Qed.

Section DispatcherFacts.

Context {arith : Arith}.

(** X10.  The dispatcher never opens the budget form and never fails to
    find the category it has just tested for: its branch for
    "update_budget" cannot be reached, because a text that contains
    "update_budget" contains "budget" and is answered by the branch before
    it. *)
Theorem handle_query_dead_branches
        (now_year : nat) (session : option ExpenseAnalyzer)
        (message : string) :
  handle_query now_year session message <> BudgetUpdatePrompt
  /\ handle_query now_year session message <> QueryError.
Proof.
  assert (Hsub : contains "update_budget" (lower message) = true ->
                 contains "budget" (lower message) = true).
  { apply (contains_inner "budget" "update_" ""). }
  unfold handle_query.
  destruct session as [analyzer|]; [|split; discriminate].
  destruct (data analyzer) as [rows|]; [|split; discriminate].
  destruct (contains "budget" (lower message)) eqn:Hb; [split; discriminate|].
  destruct (any _ categories) eqn:Hany.
  - destruct (any_next _ _ Hany) as [cat Hcat]. rewrite Hcat.
    split;
      destruct (match date_filter_of now_year (lower message) with
                | Some _ => _ | None => _ end); discriminate.
  - destruct (contains "update_budget" (lower message)) eqn:Hu.
    + specialize (Hsub eq_refl). discriminate.
    + split; discriminate.
Qed.

(** X11.  Queries written in ASCII are read without regard to letter
    case: such a message in upper case or in lower case gets the answer of
    the message itself. *)
Theorem handle_query_ignores_case
        (now_year : nat) (session : option ExpenseAnalyzer)
        (message : string) :
  is_ascii message = true ->
  handle_query now_year session (upper message)
  = handle_query now_year session message
  /\ handle_query now_year session (lower message)
     = handle_query now_year session message.
Proof.
  intros _. unfold handle_query. rewrite lower_upper, lower_idem. auto.
Qed.

(** X12.  With a frame in the session, a query is answered with the help
    text exactly when it contains neither "budget" nor any of the four
    category names; without a frame every query is answered that no data
    is loaded. *)
Theorem handle_query_not_recognized
        (now_year : nat) (session : option ExpenseAnalyzer)
        (message : string) :
  (handle_query now_year session message = NotRecognized
   <-> (exists analyzer rows,
          session = Some analyzer /\ data analyzer = Some rows)
       /\ contains "budget" (lower message) = false
       /\ Forall (fun cat => contains cat (lower message) = false) categories)
  /\ (handle_query now_year session message = NoDataLoaded
      <-> session = None
          \/ exists analyzer, session = Some analyzer /\ data analyzer = None).
Proof.
  assert (Hall : forall content,
            any (fun cat => contains cat content) categories = false
            <-> Forall (fun cat => contains cat content = false) categories).
  { intros content. unfold any. split.
    - intros H. apply Forall_forall. intros cat Hin.
      destruct (contains cat content) eqn:Hc; [|reflexivity].
      assert (existsb (fun c => contains c content) categories = true)
        by (apply existsb_exists; eauto).
      congruence.
    - intros H. destruct (existsb _ categories) eqn:He; [|reflexivity].
      apply existsb_exists in He. destruct He as (cat & Hin & Hc).
      rewrite Forall_forall in H. rewrite (H cat Hin) in Hc. discriminate. }
  assert (Hsub : contains "update_budget" (lower message) = true ->
                 contains "budget" (lower message) = true).
  { apply (contains_inner "budget" "update_" ""). }
  unfold handle_query.
  destruct session as [analyzer|].
  2:{ split; split; auto; try discriminate.
      intros [(a & r & H & _) _]. discriminate. }
  destruct (data analyzer) as [rows|] eqn:Hd.
  2:{ split; split; eauto; try discriminate.
      intros [(a & r & H & Hr) _]. inversion H; subst. congruence. }
  destruct (contains "budget" (lower message)) eqn:Hb.
  { split; split; try discriminate.
    - intros (_ & H & _). discriminate.
    - intros [H | (a & H & Hn)]; [discriminate|].
      inversion H; subst. congruence. }
  destruct (any _ categories) eqn:Hany.
  - destruct (any_next _ _ Hany) as [cat Hcat]. rewrite Hcat.
    split; split.
    + destruct (match date_filter_of now_year (lower message) with
                | Some _ => _ | None => _ end); discriminate.
    + intros (_ & _ & H). apply Hall in H. congruence.
    + destruct (match date_filter_of now_year (lower message) with
                | Some _ => _ | None => _ end); discriminate.
    + intros [H | (a & H & Hn)]; [discriminate|].
      inversion H; subst. congruence.
  - destruct (contains "update_budget" (lower message)) eqn:Hu.
    { specialize (Hsub eq_refl). discriminate. }
    split; split.
    + intros _. split; [eauto|]. split; [reflexivity|].
      apply Hall. exact Hany.
    + reflexivity.
    + discriminate.
    + intros [H | (a & H & Hn)]; [discriminate|].
      inversion H; subst. congruence.
Qed.

Lemma filter_category_is (name : string) (rows : list ExpenseRecord) :
  filter (category_is name) rows = filter (has_category name) rows.
Proof. apply filter_ext. intros r. apply category_is_has_category. Qed.

(** X13.  Whenever the dispatcher lists expenses, the category shown is
    one of Food, Travel, Utilities, Entertainment (so rows categorised
    "Other" are never listed), the listing is not empty, and it consists of
    rows of the frame of that category, in frame order, each shown with its
    date, amount and description. *)
Theorem handle_query_listing_sound
        (now_year : nat) (session : option ExpenseAnalyzer)
        (message shown : string) (items : list listing) :
  handle_query now_year session message = Expenses shown items ->
  exists analyzer rows keep,
    session = Some analyzer
    /\ data analyzer = Some rows
    /\ In shown ["Food"; "Travel"; "Utilities"; "Entertainment"]
    /\ items <> []
    /\ items = map listed
                   (filter (fun r => has_category shown r && keep r) rows).
Proof.
  unfold handle_query.
  destruct session as [analyzer|]; [|discriminate].
  destruct (data analyzer) as [rows|] eqn:Hd; [|discriminate].
  destruct (contains "budget" (lower message)); [discriminate|].
  destruct (any _ categories) eqn:Hany.
  2:{ destruct (contains "update_budget" (lower message)); discriminate. }
  destruct (next _ categories) as [cat|] eqn:Hcat; [|discriminate].
  assert (Hin : In cat categories) by (apply find_some in Hcat; tauto).
  apply capitalize_categories in Hin.
  rewrite filter_category_is.
  destruct (date_filter_of now_year (lower message)) as [f|].
  - rewrite filter_of_map, filter_twice. intros H.
    match type of H with
    | match ?m with [] => _ | _ :: _ => _ end = _ =>
        destruct m as [|x rest] eqn:Hi; [discriminate H|]
    end.
    inversion H; subst shown items; clear H.
    exists analyzer, rows, (fun r => in_month f (fst (fst (listed r)))).
    repeat split; auto. discriminate.
  - intros H.
    match type of H with
    | match ?m with [] => _ | _ :: _ => _ end = _ =>
        destruct m as [|x rest] eqn:Hi; [discriminate H|]
    end.
    inversion H; subst shown items; clear H.
    exists analyzer, rows, (fun _ => true).
    repeat split; auto; [discriminate|].
    rewrite <- Hi. apply (f_equal (map listed)). apply filter_ext.
    intros r. rewrite andb_true_r. reflexivity.
Qed.

(** X14.  A query that does not contain "budget", names a category and
    names no month is answered with all the rows of the first category
    named (in the order food, travel, utilities, entertainment), in frame
    order, whatever their dates; when the frame has no such row the answer
    says so and carries no year-month. *)
Theorem category_query_without_month
        (now_year : nat) (self : ExpenseAnalyzer) (rows : list ExpenseRecord)
        (message cat : string) :
  data self = Some rows ->
  contains "budget" (lower message) = false ->
  next (fun c => contains c (lower message)) categories = Some cat ->
  Forall (fun m => contains m (lower message) = false) months ->
  handle_query now_year (Some self) message =
    match map listed (filter (has_category (capitalize cat)) rows) with
    | [] => NoExpenses (capitalize cat) None
    | hit :: hits => Expenses (capitalize cat) (hit :: hits)
    end.
Proof.
  intros Hd Hb Hc Hm. unfold handle_query. rewrite Hd, Hb.
  rewrite (next_any _ _ _ Hc), Hc.
  unfold date_filter_of.
  assert (Hnone : next (fun month => contains month (lower message)) months
                  = None).
  { apply any_false_next. unfold any.
    destruct (existsb _ months) eqn:He; [|reflexivity].
    apply existsb_exists in He. destruct He as (m & Hin & Hcm).
    rewrite Forall_forall in Hm. rewrite (Hm m Hin) in Hcm. discriminate. }
  rewrite Hnone. cbv zeta. rewrite filter_category_is.
  destruct (map listed _); reflexivity.
Qed.

End DispatcherFacts.

(** C9.  The claim is right and the code breaks it: the year named in the
    query is not read.  Asked in 2026 for the travel expenses of January
    2024, the dispatcher lists the travel expense of January 2026 and
    leaves out the one of January 2024. *)
Theorem query_year_is_ignored :
  data Sample.travelled
    = Some [Sample.taxi; Sample.train; Sample.shuttle]
  /\ map date [Sample.taxi; Sample.train; Sample.shuttle]
     = [Stamp (mkTimestamp 2024 1 15); Stamp (mkTimestamp 2025 1 20);
        Stamp (mkTimestamp 2026 1 8)]
  /\ map category [Sample.taxi; Sample.train; Sample.shuttle]
     = [Text "Travel"; Text "Travel"; Text "Travel"]
  /\ handle_query 2026 (Some Sample.travelled)
                  "Show travel expenses for January 2024"
     = Expenses "Travel" [listed Sample.shuttle].
Proof. repeat split. Qed.

Lemma handle_query_ignores_case_witness :
  handle_query 2026 (Some Sample.travelled) (upper "Show Travel expenses")
  = handle_query 2026 (Some Sample.travelled) "Show Travel expenses"
  /\ handle_query 2026 (Some Sample.travelled) (lower "Show Travel expenses")
     = handle_query 2026 (Some Sample.travelled) "Show Travel expenses".
Proof.
  apply (handle_query_ignores_case 2026 (Some Sample.travelled)
           "Show Travel expenses").
  reflexivity.
Defined.

Lemma handle_query_listing_sound_witness :
  exists analyzer rows keep,
    Some Sample.categorized = Some analyzer
    /\ data analyzer = Some rows
    /\ In "Food" ["Food"; "Travel"; "Utilities"; "Entertainment"]
    /\ [listed Sample.coffee] <> []
    /\ [listed Sample.coffee]
       = map listed
             (filter (fun r => has_category "Food" r && keep r) rows).
Proof.
  apply (handle_query_listing_sound 2026 (Some Sample.categorized)
           "show food expenses" "Food"
           [listed Sample.coffee]).
  reflexivity.
Defined.

Lemma category_query_without_month_witness :
  handle_query 2026 (Some Sample.travelled) "Show TRAVEL expenses" =
    match map listed
              (filter (has_category (capitalize "travel"))
                      [Sample.taxi; Sample.train; Sample.shuttle]) with
    | [] => NoExpenses (capitalize "travel") None
    | hit :: hits => Expenses (capitalize "travel") (hit :: hits)
    end.
Proof.
  apply (category_query_without_month 2026 Sample.travelled
           [Sample.taxi; Sample.train; Sample.shuttle]
           "Show TRAVEL expenses" "travel").
  - reflexivity.
  - reflexivity.
  - reflexivity.
  - repeat constructor.
Defined.

(** A query that names January 2025, or January and no year, is answered
    as asked; a query with "budget" in it gets the budget table. *)
Example sample_queries :
  handle_query 2026 (Some Sample.travelled)
               "Show travel expenses for January 2025"
    = Expenses "Travel" [listed Sample.train]
  /\ handle_query 2026 (Some Sample.travelled)
                  "Show travel expenses for January"
     = Expenses "Travel" [listed Sample.shuttle]
  /\ handle_query 2026 (Some Sample.travelled)
                  "Show travel expenses for March 2025"
     = NoExpenses "Travel" (Some "2025-03")
  /\ handle_query 2026 (Some Sample.travelled) "Check budget status"
     = CurrentBudgets default_budgets
  /\ handle_query 2026 None "Show food expenses" = NoDataLoaded.
Proof. repeat split. Qed.

(** ** Textual report *)

Section ReportFacts.

Context {arith : Arith}.

Lemma generate_report_loaded self rows :
  data self = Some rows ->
  forallb numeric rows = true ->
  generate_report self = (inr (report_of self rows), self).
Proof.
  intros Hd Hnum. unfold generate_report.
  rewrite (bind_returns _ _ _ _ _ (generate_summary_loaded _ _ Hd Hnum)).
  reflexivity.
Qed.

Lemma generate_report_text self rows :
  data self = Some rows ->
  forallb numeric rows = false ->
  generate_report self = (inl (TypeError not_numeric_msg), self).
Proof.
  intros Hd Hnum. unfold generate_report.
  apply bind_raises. apply (generate_summary_text _ rows); assumption.
Qed.

Lemma generate_report_not_loaded self :
  data self = None ->
  generate_report self = (inl (ValueError no_data_msg), self).
Proof.
  intros Hd. unfold generate_report.
  apply bind_raises. apply generate_summary_not_loaded. exact Hd.
Qed.

(** X15.  The report of a stored frame whose amounts are numbers is
    produced without changing the analyzer, and its anomaly section agrees
    with its anomaly count: the line "No anomalies detected." stands there
    exactly when the count is 0, and otherwise the table has one line per
    anomaly kept by the analyzer, in their order, with date, category,
    amount and description.  When an amount of the frame is a text the
    report raises the [TypeError] of the summary. *)
Theorem report_anomaly_section
        (self : ExpenseAnalyzer) (rows : list ExpenseRecord) :
  data self = Some rows ->
  (forallb numeric rows = true ->
   exists report,
     generate_report self = (inr report, self)
     /\ (report_anomaly_details report = NoAnomaliesDetected
         <-> report_anomaly_count report = O)
     /\ (forall table,
           report_anomaly_details report = AnomalyTable table ->
           exists found,
             anomalies self = Some found
             /\ table = map detailed found
             /\ List.length table = report_anomaly_count report))
  /\ (forallb numeric rows = false ->
      exists msg, generate_report self = (inl (TypeError msg), self)).
Proof.
  intros Hd. split; intros Hnum.
  - exists (report_of self rows).
    split; [apply generate_report_loaded; assumption|].
    unfold report_of; simpl.
    destruct (anomalies self) as [[|r found]|]; simpl.
    + split; [tauto | discriminate].
    + split; [split; discriminate|].
      intros table H. inversion H; subst. exists (r :: found).
      simpl. rewrite length_map. auto.
    + split; [tauto | discriminate].
  - exists not_numeric_msg. apply (generate_report_text _ rows); assumption.
Qed.

Lemma idxmax_from_spec (k : string) (v : num) (g : list (string * num)) :
  gt_ordered ->
  exists pre top post,
    (k, v) :: g = pre ++ (idxmax_from k v g, top) :: post
    /\ Forall (fun e => gt top (snd e) = true) pre
    /\ Forall (fun e => gt (snd e) top = false) post.
Proof.
  intros [Htrans Hneg].
  revert k v; induction g as [|[k1 v1] g IH]; intros k v; simpl.
  - exists [], v, []. repeat split; constructor.
  - destruct (gt v1 v) eqn:Hg.
    + destruct (IH k1 v1) as (pre & top & post & Heq & Hpre & Hpost).
      exists ((k, v) :: pre), top, post.
      split; [simpl; rewrite Heq; reflexivity|]. split; [|exact Hpost].
      constructor; [|exact Hpre]. simpl.
      destruct pre as [|e pre]; simpl in Heq.
      * injection Heq as _ Hv _. rewrite <- Hv. exact Hg.
      * injection Heq as He _. subst e.
        apply Forall_inv in Hpre. simpl in Hpre.
        exact (Htrans _ _ _ Hpre Hg).
    + destruct (IH k v) as (pre & top & post & Heq & Hpre & Hpost).
      destruct pre as [|e pre]; simpl in Heq.
      * injection Heq as Hk Hv Hpost'.
        exists [], top, ((k1, v1) :: post).
        split; [simpl; rewrite <- Hk, <- Hv, <- Hpost'; reflexivity|].
        split; [constructor|].
        constructor; [simpl; rewrite <- Hv; exact Hg | exact Hpost].
      * injection Heq as He Hg'. subst e.
        exists ((k, v) :: (k1, v1) :: pre), top, post.
        split; [simpl; rewrite Hg' at 1; reflexivity|].
        split; [|exact Hpost].
        pose proof (Forall_inv Hpre) as Hv. simpl in Hv.
        constructor; [exact Hv|].
        constructor; [|exact (Forall_inv_tail Hpre)].
        simpl. destruct (gt top v1) eqn:Ht; [reflexivity|].
        rewrite (Hneg _ _ _ Ht Hg) in Hv. discriminate.
Qed.

(** X16.  On a stored frame whose amounts are numbers, the category that
    the report names as the one with the highest expenses is "N/A" when no
    row of the frame has a category, in particular when the frame has no
    rows; otherwise it is a category of the per-category totals whose total
    no other total exceeds and which exceeds the totals of the categories
    before it in alphabetical order (of equal totals the first is
    named). *)
Theorem top_category_is_maximal
        (self : ExpenseAnalyzer) (rows : list ExpenseRecord) :
  gt_ordered ->
  data self = Some rows ->
  forallb numeric rows = true ->
  exists report,
    generate_report self = (inr report, self)
    /\ ((forall r, In r rows -> category r = NaN) ->
        report_top_category report = "N/A")
    /\ ((exists r c, In r rows /\ category r = Text c) ->
        exists pre top post,
          report_breakdown report
          = pre ++ (report_top_category report, top) :: post
          /\ Forall (fun e => gt top (snd e) = true) pre
          /\ Forall (fun e => gt (snd e) top = false) post).
Proof.
  intros Hord Hd Hnum. exists (report_of self rows).
  split; [apply generate_report_loaded; assumption|].
  unfold report_of; simpl. unfold top_category. split.
  - intros Hnone.
    destruct (groupby_sum rows) as [|[k v] g] eqn:Hg; [reflexivity|].
    exfalso.
    assert (Hin : In k (group_keys rows)).
    { rewrite <- groupby_sum_keys, Hg. left. reflexivity. }
    apply group_keys_in in Hin. destruct Hin as (r & Hin & Hc).
    rewrite (Hnone r Hin) in Hc. discriminate.
  - intros (r & c & Hin & Hc).
    destruct (groupby_sum rows) as [|[k v] g] eqn:Hg.
    + exfalso.
      assert (Hk : In c (group_keys rows)) by (apply group_keys_in; eauto).
      rewrite <- groupby_sum_keys, Hg in Hk. exact Hk.
    + apply idxmax_from_spec. exact Hord.
Qed.

(** ** Processing an uploaded file *)

Lemma visualize_data_loaded savefig self rows :
  data self = Some rows ->
  visualize_data savefig self
  = match save_all savefig (charts_due self) with
    | inl e => (inl e, self)
    | inr saved => (inr saved, self)
    end.
Proof.
  intros Hd. unfold visualize_data.
  rewrite (bind_returns _ _ _ _ _ (require_data_loaded _ _ Hd)).
  unfold bind, read, call, charts_due.
  destruct (save_all savefig _); reflexivity.
Qed.

Lemma save_all_saved savefig charts saved :
  save_all savefig charts = inr saved ->
  saved = charts /\ Forall (fun c => savefig c = inr tt) charts.
Proof.
  revert saved; induction charts as [|c charts IH]; intros saved; simpl.
  - intros H; inversion H. auto.
  - destruct (savefig c) as [e|[]] eqn:Hc; [discriminate|].
    destruct (save_all savefig charts) as [e|saved']; [discriminate|].
    intros H; inversion H; subst.
    destruct (IH saved' eq_refl) as [-> Hall]. auto.
Qed.

Lemma generate_pdf_report_loaded build self rows :
  data self = Some rows ->
  forallb numeric rows = true ->
  generate_pdf_report build self
  = match build (summary_of self rows) with
    | inl e => (inl e, self)
    | inr path => (inr path, self)
    end.
Proof.
  intros Hd Hnum. unfold generate_pdf_report.
  rewrite (bind_returns _ _ _ _ _ (generate_summary_loaded _ _ Hd Hnum)).
  unfold call. destruct (build (summary_of self rows)); reflexivity.
Qed.

(** [process_csv] on a stored frame, by the outcome of the calls that can
    raise. *)
Lemma process_csv_loaded fit_predict savefig build rows session :
  process_csv fit_predict savefig build (inr rows) session =
    match auto_categorize (uploaded fit_predict rows) with
    | (inl e, _) => (ProcessingError e, session)
    | (inr _, categorized) =>
        match detect_anomalies categorized with
        | (inl e, _) => (ProcessingError e, session)
        | (inr _, stored) =>
            match data stored with
            | None => (ProcessingError (ValueError no_data_msg), session)
            | Some frame =>
                match save_all savefig (charts_due stored) with
                | inl e => (ProcessingError e, session)
                | inr _ =>
                    if forallb numeric frame then
                      match build (summary_of stored frame) with
                      | inl e => (ProcessingError e, Some stored)
                      | inr path =>
                          (ReportSent (report_of stored frame) path,
                           Some stored)
                      end
                    else (ProcessingError (TypeError not_numeric_msg),
                          Some stored)
                end
            end
        end
    end.
Proof.
  unfold process_csv. fold (uploaded fit_predict rows).
  destruct (auto_categorize (uploaded fit_predict rows))
    as [[e|[]] categorized] eqn:Hcat.
  - rewrite (bind_raises _ _ _ _ _ Hcat). reflexivity.
  - rewrite (bind_returns _ _ _ _ _ Hcat).
    destruct (detect_anomalies categorized) as [[e|[]] stored] eqn:Hdet.
    + rewrite (bind_raises _ _ _ _ _ Hdet). reflexivity.
    + rewrite (bind_returns _ _ _ _ _ Hdet).
      destruct (detect_anomalies_frame _ _ Hdet)
        as (r0 & frame & labels & _ & _ & _ & Hframe & _).
      rewrite Hframe.
      rewrite (visualize_data_loaded savefig _ _ Hframe).
      destruct (save_all savefig (charts_due stored)) as [e|saved];
        [reflexivity|].
      destruct (forallb numeric frame) eqn:Hnum.
      * rewrite (bind_returns _ _ _ _ _
                   (generate_report_loaded _ _ Hframe Hnum)).
        unfold bind at 1.
        rewrite (generate_pdf_report_loaded build _ _ Hframe Hnum).
        destruct (build (summary_of stored frame)); reflexivity.
      * rewrite (bind_raises _ _ _ _ _
                   (generate_report_text _ _ Hframe Hnum)).
        reflexivity.
Qed.


(** X18.  When processing a file ends with the report, the session holds
    the new analyzer, built with the default budgets; its frame has the
    rows of the loaded frame in order, with the same dates, amounts and
    descriptions, every category among Food, Travel, Utilities,
    Entertainment and Other, and an anomaly flag on every row; the report
    sent is the report of that analyzer, and its anomaly count is the
    number of flagged rows. *)
Theorem process_csv_success
        (fit_predict : list features -> result (list Z))
        (savefig : Chart -> result unit)
        (build : Summary -> result string)
        (loaded : result (list ExpenseRecord))
        (session kept : option ExpenseAnalyzer)
        (report : Report) (path : string) :
  process_csv fit_predict savefig build loaded session
  = (ReportSent report path, kept) ->
  exists rows stored frame,
    loaded = inr rows
    /\ kept = Some stored
    /\ data stored = Some frame
    /\ budgets stored = default_budgets
    /\ map date frame = map date rows
    /\ map amount frame = map amount rows
    /\ map description frame = map description rows
    /\ Forall (fun r => exists c,
                 category r = Text c
                 /\ In c ["Food"; "Travel"; "Utilities"; "Entertainment";
                          "Other"])
              frame
    /\ Forall (fun r => anomaly r <> None) frame
    /\ anomalies stored = Some (filter is_outlier frame)
    /\ Forall (fun c => savefig c = inr tt) (charts_due stored)
    /\ generate_report stored = (inr report, stored)
    /\ report_anomaly_count report = List.length (filter is_outlier frame).
Proof.
  destruct loaded as [e0|rows]; [discriminate|].
  rewrite process_csv_loaded.
  destruct (forallb described rows) eqn:Hall.
  2:{ rewrite (auto_categorize_undescribed (uploaded fit_predict rows) rows
                 eq_refl Hall). discriminate. }
  rewrite (auto_categorize_loaded (uploaded fit_predict rows) rows
             eq_refl Hall).
  set (rows1 := recategorize _ rows).
  destruct (detect_anomalies _) as [[e0|[]] stored] eqn:Hdet; [discriminate|].
  destruct (detect_anomalies_frame _ _ Hdet)
    as (r0 & frame & labels & Hr0 & _ & _ & Hframe & Hdate & Hcat & Ham
        & Hdesc & Hflag & _ & Hfound & _ & Hbud & _).
  simpl in Hr0. inversion Hr0; subst r0; clear Hr0.
  rewrite Hframe.
  destruct (save_all savefig (charts_due stored)) as [e0|saved] eqn:Hs;
    [discriminate|].
  apply save_all_saved in Hs. destruct Hs as [_ Hsaved].
  destruct (forallb numeric frame) eqn:Hnum; [|discriminate].
  destruct (build (summary_of stored frame)) as [e0|p]; [discriminate|].
  intros H. inversion H; subst report path kept; clear H.
  exists rows, stored, frame.
  split; [reflexivity|]. split; [reflexivity|]. split; [exact Hframe|].
  split; [rewrite Hbud; reflexivity|].
  assert (Hsame : map date rows1 = map date rows
                  /\ map amount rows1 = map amount rows
                  /\ map description rows1 = map description rows).
  { unfold rows1, recategorize. rewrite !map_map. simpl. auto. }
  destruct Hsame as (E1 & E2 & E3).
  split; [congruence|]. split; [congruence|]. split; [congruence|].
  split.
  { assert (Hc : Forall (fun c => exists k,
                   c = Text k
                   /\ In k ["Food"; "Travel"; "Utilities"; "Entertainment";
                            "Other"])
                 (map category frame)).
    { rewrite Hcat. unfold rows1, recategorize. rewrite map_map. simpl.
      apply Forall_forall. intros c Hin. apply in_map_iff in Hin.
      destruct Hin as (r & <- & _). eexists. split; [reflexivity|].
      apply (first_category_in_keys default_category_keywords). }
    rewrite Forall_forall in *. intros r Hin. apply Hc.
    apply in_map. exact Hin. }
  split.
  { assert (Ha : Forall (fun a => a <> None) (map anomaly frame)).
    { rewrite Hflag. apply Forall_forall. intros a Hin.
      apply in_map_iff in Hin. destruct Hin as (z & <- & _). discriminate. }
    rewrite Forall_forall in *. intros r Hin. apply Ha.
    apply in_map. exact Hin. }
  split; [exact Hfound|]. split; [exact Hsaved|].
  split; [apply generate_report_loaded; assumption|].
  unfold report_of; simpl. rewrite Hfound. reflexivity.
Qed.

End ReportFacts.

Lemma report_anomaly_section_witness :
  exists report,
    generate_report (snd (detect_anomalies Sample.categorized))
    = (inr report, snd (detect_anomalies Sample.categorized))
    /\ (report_anomaly_details report = NoAnomaliesDetected
        <-> report_anomaly_count report = O)
    /\ (forall table,
          report_anomaly_details report = AnomalyTable table ->
          exists found,
            anomalies (snd (detect_anomalies Sample.categorized)) = Some found
            /\ table = map detailed found
            /\ List.length table = report_anomaly_count report).
Proof.
  destruct (report_anomaly_section
              (snd (detect_anomalies Sample.categorized))
              match data (snd (detect_anomalies Sample.categorized)) with
              | Some frame => frame
              | None => []
              end eq_refl) as (Hnumbers & _).
  apply Hnumbers. reflexivity.
Defined.

Lemma top_category_is_maximal_witness :
  exists report,
    generate_report Sample.categorized = (inr report, Sample.categorized)
    /\ ((forall r,
           In r (recategorize default_category_keywords Sample.rows) ->
           category r = NaN) ->
        report_top_category report = "N/A")
    /\ ((exists r c,
           In r (recategorize default_category_keywords Sample.rows)
           /\ category r = Text c) ->
        exists pre top post,
          report_breakdown report
          = pre ++ (report_top_category report, top) :: post
          /\ Forall (fun e => gt top (snd e) = true) pre
          /\ Forall (fun e => gt (snd e) top = false) post).
Proof.
  apply (top_category_is_maximal Sample.categorized
           (recategorize default_category_keywords Sample.rows)
           int64_gt_ordered);
    reflexivity.
Defined.


Lemma process_csv_success_witness :
  exists rows stored frame,
    @inr exn (list ExpenseRecord) Sample.rows = inr rows
    /\ snd (process_csv Sample.threshold_model (fun _ => inr tt)
                        (fun _ => inr "report.pdf")
                        (inr Sample.rows) None) = Some stored
    /\ data stored = Some frame
    /\ budgets stored = default_budgets
    /\ map date frame = map date rows
    /\ map amount frame = map amount rows
    /\ map description frame = map description rows
    /\ Forall (fun r => exists c,
                 category r = Text c
                 /\ In c ["Food"; "Travel"; "Utilities"; "Entertainment";
                          "Other"])
              frame
    /\ Forall (fun r => anomaly r <> None) frame
    /\ anomalies stored = Some (filter is_outlier frame)
    /\ Forall (fun c => (fun _ : Chart => @inr exn unit tt) c = inr tt)
              (charts_due stored)
    /\ generate_report stored
       = (inr (report_of
                 (snd (detect_anomalies Sample.categorized))
                 match data (snd (detect_anomalies Sample.categorized)) with
                 | Some frame' => frame'
                 | None => []
                 end), stored)
    /\ report_anomaly_count
         (report_of
            (snd (detect_anomalies Sample.categorized))
            match data (snd (detect_anomalies Sample.categorized)) with
            | Some frame' => frame'
            | None => []
            end)
       = List.length (filter is_outlier frame).
Proof.
  apply (process_csv_success Sample.threshold_model (fun _ => inr tt)
           (fun _ => inr "report.pdf") (inr Sample.rows) None _ _
           "report.pdf").
  reflexivity.
Defined.

(** The file of the example is processed to its report: one anomaly, the
    flight, and Travel as the category with the highest expenses.  The
    file with a text amount fails in the detector, and the file with an
    empty description in the categorizer; the session then keeps what it
    had. *)
Example sample_uploads :
  (exists report,
     process_csv Sample.threshold_model (fun _ => inr tt)
                 (fun _ => inr "report.pdf") (inr Sample.rows) None
     = (ReportSent report "report.pdf",
        Some (snd (detect_anomalies Sample.categorized)))
     /\ report_anomaly_count report = 1%nat
     /\ report_top_category report = "Travel")
  /\ process_csv Sample.threshold_model (fun _ => inr tt)
                 (fun _ => inr "report.pdf") (inr Sample.text_rows) None
     = (ProcessingError (ModelError "could not convert string to float"),
        None)
  /\ process_csv Sample.threshold_model (fun _ => inr tt)
                 (fun _ => inr "report.pdf")
                 (inr [Sample.coffee; Sample.cash]) None
     = (ProcessingError (AttributeError no_lower_msg), None).
Proof.
  split; [|split; reflexivity].
  eexists. split; [reflexivity|]. split; reflexivity.
Qed.
